(** * reachy/parts/motor.py: single-axis motors and the Orbita actuator

    A shallow embedding of [DynamixelMotor] and [OrbitaActuator].

    Conventions of the embedding.
    - Python numbers are exact rationals [Q]; [==] on them is [Qeq].  The two
      frame-transform methods and the stall test of homing are embedded a
      second time on binary64 floats (modules [Binary64] and [Float64]) to
      observe rounding.
    - A luos module (a motor or a disk) is a handle into the bus; attribute
      reads and writes, [setToZero], [time.sleep], the calls to the
      kinematics model and to the trajectory players are recorded, oldest
      first, in the log of the world.
    - Methods are actions of a state-and-exception monad: they return a
      value, raise a Python exception, or (for [while True]) run out of the
      iterations granted to them. *)

From Stdlib Require Import QArith Qabs ZArith List String Lia.
From Stdlib Require Import Floats.PrimFloat Floats.FloatOps Floats.SpecFloat.
From Stdlib Require Import Numbers.Cyclic.Int63.Uint63.
From stdpp Require Import base gmap strings list.

Set Warnings "-inexact-float".
Open Scope Q_scope.

(* ------------------------------------------------------------------ *)
(** ** Python values, exceptions and the motor bus                      *)
(* ------------------------------------------------------------------ *)

(** Handle of a luos module on the bus. *)
Definition Handle := nat.

(** The module attributes the file touches ([attr.compliant] is the
    attribute [compliant] of a luos module). *)
Module attr.
Inductive Attr :=
| compliant | target_rot_speed | target_rot_position | power_ratio_limit
| limit_current | encoder_res | reduction | wheel_size | positionPid
| rot_position_mode | rot_speed_mode | rot_position | rot_speed
| temperature.
End attr.
Export attr (Attr).

#[global] Instance Attr_eq_dec : EqDecision Attr.
Proof. solve_decision. Defined.

Definition Attr_to_nat (a : Attr) : nat :=
  match a with
  | attr.compliant => 0 | attr.target_rot_speed => 1
  | attr.target_rot_position => 2 | attr.power_ratio_limit => 3
  | attr.limit_current => 4 | attr.encoder_res => 5 | attr.reduction => 6
  | attr.wheel_size => 7 | attr.positionPid => 8
  | attr.rot_position_mode => 9 | attr.rot_speed_mode => 10
  | attr.rot_position => 11 | attr.rot_speed => 12 | attr.temperature => 13
  end%nat.

Definition Attr_of_nat (n : nat) : Attr :=
  match n with
  | 0 => attr.compliant | 1 => attr.target_rot_speed
  | 2 => attr.target_rot_position | 3 => attr.power_ratio_limit
  | 4 => attr.limit_current | 5 => attr.encoder_res | 6 => attr.reduction
  | 7 => attr.wheel_size | 8 => attr.positionPid
  | 9 => attr.rot_position_mode | 10 => attr.rot_speed_mode
  | 11 => attr.rot_position | 12 => attr.rot_speed | _ => attr.temperature
  end%nat.

#[global] Instance Attr_countable : Countable Attr.
Proof.
  apply (inj_countable' Attr_to_nat Attr_of_nat).
  intros []; reflexivity.
Defined.

(** Attributes whose read returns a measurement of the hardware. *)
Definition is_sensor (a : Attr) : bool :=
  match a with
  | attr.rot_position | attr.rot_speed | attr.temperature => true
  | _ => false
  end.

Inductive Value :=
| VNum (q : Q)
| VBool (b : bool)
| VStr (s : string)
| VList (l : list Q)
| VNone.

Inductive BusOp :=
| BRead (d : Handle) (a : Attr)
| BWrite (d : Handle) (a : Attr) (v : Value)
| BSetToZero (d : Handle).

Inductive Interpolation := Linear | MinimumJerk.

(** A trajectory player as [goto] builds it: interpolations[mode](start,
    goal, duration). *)
Record TrajPlayer := {
  tp_class : Interpolation;
  tp_initial : Value;
  tp_goal : Q;
  tp_duration : Q;
}.

Inductive Event :=
| EBus (op : BusOp)
| ESleep (secs : Q)
| EAnglesFromVector (vector : list Q) (angle : Q)
| EAnglesFromQuaternion (w x y z : Q)
| EResetLastAngles
| ETrajStart (p : TrajPlayer) (motor : Handle)
| ETrajWait (p : TrajPlayer).

Inductive PyError :=
| ValueError (msg : string)
| TypeError
| KeyError (key : string)
| ZeroDivisionError
| HardwareIOError (op : BusOp).

(** Outcome of a call: a value, an exception, or a loop still running when
    the iterations granted to it are used up. *)
Inductive Res (A : Type) :=
| Ok (a : A)
| Raise (e : PyError)
| Running.
Arguments Ok {A} a.
Arguments Raise {A} e.
Arguments Running {A}.

(** The bus and the clock, as far as the file observes them.
    [regs] holds the value last written to each attribute; the [n]-th
    successful sensor read of the run returns [sensor n d a]; [fails] says
    which bus operations raise. *)
Record World := {
  regs : gmap (Handle * Attr) Value;
  sensor : nat -> Handle -> Attr -> Q;
  nreads : nat;
  fails : BusOp -> bool;
  log : list Event;
}.

Definition M (S A : Type) : Type := S -> Res A * S.

Definition ret {S A} (a : A) : M S A := fun s => (Ok a, s).

Definition bind {S A B} (m : M S A) (k : A -> M S B) : M S B :=
  fun s =>
    match m s with
    | (Ok a, s') => k a s'
    | (Raise e, s') => (Raise e, s')
    | (Running, s') => (Running, s')
    end.

Definition raise {S A} (e : PyError) : M S A := fun s => (Raise e, s).

Declare Scope py_scope.
Delimit Scope py_scope with py.
Notation "x <- c1 ;; c2" := (bind c1 (fun x => c2))
  (at level 100, c1 at next level, right associativity) : py_scope.
Notation "c1 ;; c2" := (bind c1 (fun _ => c2))
  (at level 100, right associativity) : py_scope.
Open Scope py_scope.

(** [for x in l: body x] *)
Fixpoint for_each {S A} (l : list A) (body : A -> M S unit) : M S unit :=
  match l with
  | [] => ret tt
  | x :: l' => body x ;; for_each l' body
  end.

(** [[f x for x in l]] *)
Fixpoint comprehension {S A B} (l : list A) (f : A -> M S B) : M S (list B) :=
  match l with
  | [] => ret []
  | x :: l' => y <- f x ;; ys <- comprehension l' f ;; ret (y :: ys)
  end.

Definition record (e : Event) (w : World) : World :=
  {| regs := regs w; sensor := sensor w; nreads := nreads w;
     fails := fails w; log := log w ++ [e] |}.

(** [d.a = v] *)
Definition write (d : Handle) (a : Attr) (v : Value) : M World unit :=
  fun w =>
    if fails w (BWrite d a v) then (Raise (HardwareIOError (BWrite d a v)), w)
    else (Ok tt,
          {| regs := <[(d, a) := v]> (regs w); sensor := sensor w;
             nreads := nreads w; fails := fails w;
             log := log w ++ [EBus (BWrite d a v)] |}).

(** [d.a] *)
Definition read (d : Handle) (a : Attr) : M World Value :=
  fun w =>
    if fails w (BRead d a) then (Raise (HardwareIOError (BRead d a)), w)
    else if is_sensor a then
      (Ok (VNum (sensor w (nreads w) d a)),
       {| regs := regs w; sensor := sensor w; nreads := S (nreads w);
          fails := fails w; log := log w ++ [EBus (BRead d a)] |})
    else (Ok (default VNone (regs w !! (d, a))), record (EBus (BRead d a)) w).

(** [d.setToZero()] *)
Definition setToZero (d : Handle) : M World unit :=
  fun w =>
    if fails w (BSetToZero d) then (Raise (HardwareIOError (BSetToZero d)), w)
    else (Ok tt, record (EBus (BSetToZero d)) w).

(** [time.sleep(secs)]: a negative length is a ValueError. *)
Definition sleep (secs : Q) : M World unit :=
  fun w =>
    if Qle_bool 0 secs then (Ok tt, record (ESleep secs) w)
    else (Raise (ValueError "sleep length must be non-negative"), w).

(** A value used as a number ([bool] is a subclass of [int]). *)
Definition as_num {S} (v : Value) : M S Q :=
  match v with
  | VNum q => ret q
  | VBool b => ret (if b then 1 else 0)
  | VStr _ | VList _ | VNone => raise TypeError
  end.

(** [a / b] *)
Definition truediv {S} (a b : Q) : M S Q :=
  if Qeq_bool b 0 then raise ZeroDivisionError else ret (a / b).

(* ------------------------------------------------------------------ *)
(** ** class DynamixelMotor                                             *)
(* ------------------------------------------------------------------ *)

Module Dynamixel.

Record DynamixelMotor := {
  _root_part_name : string;   (* self._root_part.name *)
  _name : string;
  _motor : Handle;
  _offset : Q;
  _direct : bool;
}.

(** [__init__], with the two entries of [config] it looks up. *)
Definition __init__ (root_part_name name : string) (luos_motor : Handle)
    (config_offset : Q) (config_orientation : string) : DynamixelMotor :=
  {| _root_part_name := root_part_name; _name := name; _motor := luos_motor;
     _offset := config_offset;
     _direct := String.eqb config_orientation "direct" |}.

Definition name (self : DynamixelMotor) : string :=
  (_root_part_name self ++ "." ++ _name self)%string.

Definition offset (self : DynamixelMotor) : Q := _offset self.

Definition is_direct (self : DynamixelMotor) : bool := _direct self.

Definition _as_local_pos (self : DynamixelMotor) (pos : Q) : Q :=
  (if is_direct self then pos else - pos) - offset self.

Definition _to_motor_pos (self : DynamixelMotor) (pos : Q) : Q :=
  (pos + offset self) * (if is_direct self then 1 else -1).

Definition present_position (self : DynamixelMotor) : M World Q :=
  v <- read (_motor self) attr.rot_position ;;
  pos <- as_num v ;;
  ret (_as_local_pos self pos).

Definition goal_position (self : DynamixelMotor) : M World Q :=
  v <- read (_motor self) attr.target_rot_position ;;
  pos <- as_num v ;;
  ret (_as_local_pos self pos).

Definition set_goal_position (self : DynamixelMotor) (value : Q)
    : M World unit :=
  write (_motor self) attr.target_rot_position
        (VNum (_to_motor_pos self value)).

Definition moving_speed (self : DynamixelMotor) : M World Value :=
  read (_motor self) attr.target_rot_speed.

Definition set_moving_speed (self : DynamixelMotor) (value : Q)
    : M World unit :=
  write (_motor self) attr.target_rot_speed (VNum value).

Definition compliant (self : DynamixelMotor) : M World Value :=
  read (_motor self) attr.compliant.

Definition set_compliant (self : DynamixelMotor) (value : bool)
    : M World unit :=
  write (_motor self) attr.compliant (VBool value).

Definition torque_limit (self : DynamixelMotor) : M World Value :=
  read (_motor self) attr.power_ratio_limit.

Definition set_torque_limit (self : DynamixelMotor) (value : Q)
    : M World unit :=
  write (_motor self) attr.power_ratio_limit (VNum value).

Definition temperature (self : DynamixelMotor) : M World Value :=
  read (_motor self) attr.temperature.

(** The properties of the class; [starting_point] names one of them. *)
Inductive Property :=
| P_name | P_present_position | P_goal_position | P_offset
| P_moving_speed | P_compliant | P_torque_limit | P_temperature.

(** [getattr(self, p)] *)
Definition getattr (self : DynamixelMotor) (p : Property) : M World Value :=
  match p with
  | P_name => ret (VStr (name self))
  | P_present_position => q <- present_position self ;; ret (VNum q)
  | P_goal_position => q <- goal_position self ;; ret (VNum q)
  | P_offset => ret (VNum (offset self))
  | P_moving_speed => moving_speed self
  | P_compliant => compliant self
  | P_torque_limit => torque_limit self
  | P_temperature => temperature self
  end.

(** The dict of [goto], in insertion order. *)
Definition interpolations : list (string * Interpolation) :=
  [("linear"%string, Linear); ("minjerk"%string, MinimumJerk)].

Definition keys {V} (d : list (string * V)) : list string := map fst d.

(** [k in d.keys()] *)
Definition contains (ks : list string) (k : string) : bool :=
  existsb (String.eqb k) ks.

(** [d[k]] *)
Fixpoint getitem {V} (d : list (string * V)) (k : string) : option V :=
  match d with
  | [] => None
  | (k', v) :: d' => if String.eqb k k' then Some v else getitem d' k
  end.

Fixpoint join (sep : string) (l : list string) : string :=
  match l with
  | [] => ""
  | [x] => x
  | x :: l' => x ++ sep ++ join sep l'
  end%string.

Definition quote (s : string) : string := ("'" ++ s ++ "'")%string.

(** [repr] of a tuple of strings, as the f-string formats [available]. *)
Definition tuple_repr (l : list string) : string :=
  match l with
  | [x] => "(" ++ quote x ++ ",)"
  | _ => "(" ++ join ", " (map quote l) ++ ")"
  end%string.

(** [Linear] and [MinimumJerk] come from reachy/trajectory/interpolation.py;
    the constructor call only stores its arguments here, and [start] and
    [wait] of the player are recorded in the log and not interpreted. *)
Definition traj_start (p : TrajPlayer) (self : DynamixelMotor) : M World unit :=
  fun w => (Ok tt, record (ETrajStart p (_motor self)) w).

Definition traj_wait (p : TrajPlayer) : M World unit :=
  fun w => (Ok tt, record (ETrajWait p) w).

Definition goto (self : DynamixelMotor) (goal_position duration : Q)
    (starting_point : Property) (wait : bool) (interpolation_mode : string)
    : M World TrajPlayer :=
  if negb (contains (keys interpolations) interpolation_mode) then
    let available := keys interpolations in
    raise (ValueError ("interpolation_mode should be one of "
                       ++ tuple_repr available))
  else
    match getitem interpolations interpolation_mode with
    | None => raise (KeyError interpolation_mode)
    | Some cls =>
        start <- getattr self starting_point ;;
        let traj_player :=
          {| tp_class := cls; tp_initial := start;
             tp_goal := goal_position; tp_duration := duration |} in
        traj_start traj_player self ;;
        (if wait then traj_wait traj_player else ret tt) ;;
        ret traj_player
    end.

(** Defaults of [goto]. *)
Definition default_starting_point : Property := P_present_position.
Definition default_interpolation_mode : string := "linear".

End Dynamixel.

(** The two frame-transform methods again, on binary64 floats: the same
    expressions, with Python's [float] arithmetic. *)
Module Binary64.

Definition _as_local_pos (offset : float) (direct : bool) (pos : float)
    : float :=
  ((if direct then pos else - pos) - offset)%float.

Definition _to_motor_pos (offset : float) (direct : bool) (pos : float)
    : float :=
  ((pos + offset) * (if direct then 1 else -1))%float.

End Binary64.

(* ------------------------------------------------------------------ *)
(** ** class OrbitaActuator                                             *)
(* ------------------------------------------------------------------ *)

(** [pyquaternion.Quaternion(w, x, y, z)] *)
Record Quaternion := { quat_w : Q; quat_x : Q; quat_y : Q; quat_z : Q }.

(** The kinematics model [orbita.Actuator], an external package: its state
    (it remembers the last angles) and the four entry points the actuator
    calls.  A solver returns its angles or raises. *)
Record Kinematics := {
  Model : Type;
  Geometry : Type;                     (* Pc_z, Cp_z, R, R0 *)
  OrbitaModel : Geometry -> Model;
  get_angles_from_vector :
    Model -> list Q -> Q -> Res (list Q) * Model;
  get_angles_from_quaternion :
    Model -> Q -> Q -> Q -> Q -> Res (list Q) * Model;
  reset_last_angles : Model -> Model;
}.

(** [collections.deque(items, maxlen)] *)
Record deque (A : Type) := { dq_items : list A; dq_maxlen : nat }.
Arguments dq_items {A} _.
Arguments dq_maxlen {A} _.

(** [dq.append(x)]: push on the right, then drop the leftmost item when
    the bound is exceeded. *)
Definition deque_append {A} (dq : deque A) (x : A) : deque A :=
  let items := dq_items dq ++ [x] in
  {| dq_items := if (dq_maxlen dq <? length items)%nat then tail items
                 else items;
     dq_maxlen := dq_maxlen dq |}.

Definition Qsum (l : list Q) : Q := fold_right Qplus 0 l.

(** [np.mean(rows, axis=0)] for rows of equal length: one mean per
    column. *)
Definition np_mean_axis0 (rows : list (list Q)) : list Q :=
  map (fun j => Qsum (map (fun row => nth j row 0) rows)
                / inject_Z (Z.of_nat (length rows)))
      (seq 0 (length (hd [] rows))).

(** [np.all(avg >= 0)] *)
Definition np_all_ge0 (avg : list Q) : bool := forallb (Qle_bool 0) avg.

Module Orbita.
Section WithModel.

Context (K : Kinematics).

Record OrbitaActuator := {
  disk_bottom : Handle;
  disk_middle : Handle;
  disk_top : Handle;
  model : Model K;
  _compliancy : bool;
  _moving_speed : Q;
}.

(** The object and the world its methods act on. *)
Record Sys := { self : OrbitaActuator; bus : World }.

Definition on_bus {A} (m : M World A) : M Sys A :=
  fun s =>
    let (r, w') := m (bus s) in (r, {| self := self s; bus := w' |}).

(** [self.<field> = ...] *)
Definition assign (f : OrbitaActuator -> OrbitaActuator) : M Sys unit :=
  fun s => (Ok tt, {| self := f (self s); bus := bus s |}).

Definition disks (self : OrbitaActuator) : list Handle :=
  [disk_top self; disk_middle self; disk_bottom self].

(** [self.disks] inside a method *)
Definition self_disks : M Sys (list Handle) :=
  fun s => (Ok (disks (self s)), s).

Definition compliant (self : OrbitaActuator) : bool := _compliancy self.

Definition set_compliant (compliancy : bool) : M Sys unit :=
  assign (fun o =>
    {| disk_bottom := disk_bottom o; disk_middle := disk_middle o;
       disk_top := disk_top o; model := model o;
       _compliancy := compliancy; _moving_speed := _moving_speed o |}) ;;
  ds <- self_disks ;;
  for_each ds (fun d => on_bus (write d attr.compliant (VBool compliancy))).

Definition moving_speed (self : OrbitaActuator) : Q := _moving_speed self.

Definition set_moving_speed (speed : Q) : M Sys unit :=
  assign (fun o =>
    {| disk_bottom := disk_bottom o; disk_middle := disk_middle o;
       disk_top := disk_top o; model := model o;
       _compliancy := _compliancy o; _moving_speed := speed |}) ;;
  ds <- self_disks ;;
  for_each ds (fun d => on_bus (write d attr.target_rot_speed (VNum speed))).

(** A call into [self.model]: the call is logged, the model keeps its new
    state, the result or the exception is passed on. *)
Definition call_model (e : Event)
    (f : Model K -> Res (list Q) * Model K) : M Sys (list Q) :=
  fun s =>
    let (r, m') := f (model (self s)) in
    (r, {| self := {| disk_bottom := disk_bottom (self s);
                      disk_middle := disk_middle (self s);
                      disk_top := disk_top (self s); model := m';
                      _compliancy := _compliancy (self s);
                      _moving_speed := _moving_speed (self s) |};
           bus := record e (bus s) |}).

Definition point_at (vector : list Q) (angle : Q) : M Sys unit :=
  thetas <- call_model (EAnglesFromVector vector angle)
              (fun m => get_angles_from_vector K m vector angle) ;;
  ds <- self_disks ;;
  for_each (combine ds thetas) (fun '(d, q) =>
    let q := - q in
    on_bus (write d attr.target_rot_position (VNum q))).

(** [duration > 0] *)
Definition Qpositive (q : Q) : bool := negb (Qle_bool q 0).

Definition orient (quat : Quaternion) (duration : Q) (wait : bool)
    : M Sys unit :=
  thetas <- call_model
              (EAnglesFromQuaternion (quat_w quat) (quat_x quat)
                                     (quat_y quat) (quat_z quat))
              (fun m => get_angles_from_quaternion K m (quat_w quat)
                          (quat_x quat) (quat_y quat) (quat_z quat)) ;;
  let thetas := map Qopp thetas in
  (if Qpositive duration then
     ds <- self_disks ;;
     speeds <- comprehension (combine ds thetas) (fun '(d, q) =>
                 v <- on_bus (read d attr.rot_position) ;;
                 pos <- as_num v ;;
                 truediv (Qabs (q - pos)) duration) ;;
     ds <- self_disks ;;
     for_each (combine ds speeds) (fun '(d, s) =>
       on_bus (write d attr.target_rot_speed (VNum s)))
   else ret tt) ;;
  ds <- self_disks ;;
  for_each (combine ds thetas) (fun '(d, q) =>
    on_bus (write d attr.target_rot_position (VNum q))) ;;
  (if wait then on_bus (sleep duration) else ret tt).

(** Defaults of [orient]. *)
Definition default_duration : Q := -1.
Definition default_wait : bool := false.

Definition setup (pid : list Q) (reduction wheel_size encoder_res : Q)
    (moving_speed : Q) : M Sys unit :=
  ds <- self_disks ;;
  for_each ds (fun disk =>
    on_bus (write disk attr.limit_current (VNum 0.4)) ;;
    on_bus (write disk attr.encoder_res (VNum encoder_res)) ;;
    on_bus (write disk attr.reduction (VNum reduction)) ;;
    on_bus (write disk attr.wheel_size (VNum wheel_size)) ;;
    on_bus (write disk attr.positionPid (VList pid)) ;;
    on_bus (write disk attr.rot_position_mode (VBool true)) ;;
    on_bus (write disk attr.rot_speed_mode (VBool true)) ;;
    on_bus (write disk attr.rot_position (VBool true)) ;;
    on_bus (write disk attr.rot_speed (VBool true)) ;;
    on_bus (setToZero disk) ;;
    on_bus (sleep 0.1) ;;
    on_bus (write disk attr.target_rot_speed (VNum moving_speed))).

(** [self.disk_bottom, self.disk_middle, self.disk_top = luos_disks_motor],
    the model, the two cached fields, then [setup].  The arguments
    [root_part] and [name] are not used by the constructor. *)
Definition __init__ (luos_disks_motor : list Handle) (geometry : Geometry K)
    (pid : list Q) (reduction wheel_size encoder_res : Q)
    : M World OrbitaActuator :=
  match luos_disks_motor with
  | [b; m; t] =>
      fun w =>
        let o := {| disk_bottom := b; disk_middle := m; disk_top := t;
                    model := OrbitaModel K geometry;
                    _compliancy := false; _moving_speed := 50 |} in
        let (r, s) := setup pid reduction wheel_size encoder_res
                        (moving_speed o) {| self := o; bus := w |} in
        (match r with
         | Ok _ => Ok (self s)
         | Raise e => Raise e
         | Running => Running
         end, bus s)
  | [] => raise (ValueError "not enough values to unpack (expected 3, got 0)")
  | [_] => raise (ValueError "not enough values to unpack (expected 3, got 1)")
  | [_; _] =>
      raise (ValueError "not enough values to unpack (expected 3, got 2)")
  | _ => raise (ValueError "too many values to unpack (expected 3)")
  end.

(** The [while True] loop of [homing]; [fuel] bounds the iterations the
    run is followed for. *)
Fixpoint stall_detection (fuel : nat) (recent_speed : deque (list Q))
    : M Sys unit :=
  match fuel with
  | O => fun s => (Running, s)
  | S fuel' =>
      ds <- self_disks ;;
      sample <- comprehension ds (fun d =>
                  v <- on_bus (read d attr.rot_speed) ;; as_num v) ;;
      let recent_speed := deque_append recent_speed sample in
      let avg_speed := np_mean_axis0 (dq_items recent_speed) in
      if np_all_ge0 avg_speed then ret tt
      else on_bus (sleep 0.01) ;; stall_detection fuel' recent_speed
  end.

Definition homing (fuel : nat) (speed limit_pos target_pos : Q)
    : M Sys unit :=
  let recent_speed := {| dq_items := []; dq_maxlen := 10 |} in
  ds <- self_disks ;;
  for_each ds (fun d => on_bus (setToZero d)) ;;
  on_bus (sleep 0.1) ;;
  set_compliant false ;;
  on_bus (sleep 0.1) ;;
  ds <- self_disks ;;
  for_each ds (fun d =>
    on_bus (write d attr.target_rot_speed (VNum speed)) ;;
    on_bus (write d attr.target_rot_position (VNum limit_pos))) ;;
  on_bus (sleep 1) ;;
  stall_detection fuel recent_speed ;;
  ds <- self_disks ;;
  for_each ds (fun d => on_bus (setToZero d)) ;;
  on_bus (sleep 1) ;;
  ds <- self_disks ;;
  for_each ds (fun d =>
    on_bus (write d attr.target_rot_position (VNum target_pos))) ;;
  t <- truediv target_pos speed ;;
  on_bus (sleep (t + 0.25)) ;;
  ds <- self_disks ;;
  for_each ds (fun d => on_bus (setToZero d)) ;;
  on_bus (sleep 0.1) ;;
  (* self.model.reset_last_angles(): the model forgets, the call is logged *)
  assign (fun o =>
    {| disk_bottom := disk_bottom o; disk_middle := disk_middle o;
       disk_top := disk_top o; model := reset_last_angles K (model o);
       _compliancy := _compliancy o; _moving_speed := _moving_speed o |}) ;;
  on_bus (fun w => (Ok tt, record EResetLastAngles w)) ;;
  orient {| quat_w := 1; quat_x := 0; quat_y := 0; quat_z := 0 |}
         default_duration true.

(** Defaults of [homing]. *)
Definition default_speed : Q := 50.
Definition default_limit_pos : Q := -270.
Definition default_target_pos : Q := 102.

End WithModel.
End Orbita.

Arguments Orbita.disk_bottom {K} _.
Arguments Orbita.disk_middle {K} _.
Arguments Orbita.disk_top {K} _.
Arguments Orbita.model {K} _.
Arguments Orbita._compliancy {K} _.
Arguments Orbita._moving_speed {K} _.
Arguments Orbita.self {K} _.
Arguments Orbita.bus {K} _.
Arguments Orbita.disks {K} _.
Arguments Orbita.compliant {K} _.
Arguments Orbita.moving_speed {K} _.

(* ------------------------------------------------------------------ *)
(** ** Worlds and models used in the examples                           *)
(* ------------------------------------------------------------------ *)

(** A bus on which every operation succeeds, nothing written yet, whose
    sensors follow [feed]. *)
Definition sound_bus (feed : nat -> Handle -> Attr -> Q) : World :=
  {| regs := ∅; sensor := feed; nreads := 0; fails := fun _ => false;
     log := [] |}.

(** Sensors that read zero all the time. *)
Definition at_rest : nat -> Handle -> Attr -> Q := fun _ _ _ => 0.

(** A kinematics model whose solvers return [out] whatever is asked; its
    state counts the resets. *)
Definition stub_solver (out : list Q) : Kinematics :=
  {| Model := nat; Geometry := unit;
     OrbitaModel := fun _ => O;
     get_angles_from_vector := fun m _ _ => (Ok out, m);
     get_angles_from_quaternion := fun m _ _ _ _ => (Ok out, m);
     reset_last_angles := fun m => S m |}.

(** A motor of the right arm, reversed, with offset 10. *)
Definition elbow : Dynamixel.DynamixelMotor :=
  Dynamixel.__init__ "right_arm" "elbow_pitch" 7%nat 10 "indirect".

(* ------------------------------------------------------------------ *)
(** ** Predicates used in the statements                                *)
(* ------------------------------------------------------------------ *)

(** The action never ends in a ValueError. *)
Definition never_ValueError {S A} (m : M S A) : Prop :=
  forall s msg, fst (m s) <> Raise (ValueError msg).

(** Every bus operation succeeds. *)
Definition sound (w : World) : Prop := forall op, fails w op = false.

(** The events of writing [a] on each disk with its value. *)
Definition writes (a : Attr) (targets : list (Handle * Q)) : list Event :=
  map (fun '(d, q) => EBus (BWrite d a (VNum q))) targets.

(** The registers after those writes. *)
Definition written (a : Attr) (targets : list (Handle * Q))
    (rg : gmap (Handle * Attr) Value) : gmap (Handle * Attr) Value :=
  foldl (fun rg '(d, q) => <[(d, a) := VNum q]> rg) rg targets.

(** An actuator on handles 1 (bottom), 2 (middle), 3 (top), over the stub
    model. *)
Definition neck (out : list Q) : Orbita.OrbitaActuator (stub_solver out) :=
  {| Orbita.disk_bottom := 1%nat; Orbita.disk_middle := 2%nat;
     Orbita.disk_top := 3%nat; Orbita.model := O : Model (stub_solver out);
     Orbita._compliancy := false; Orbita._moving_speed := 50 |}.

(** The method leaves the quantity [f] of the object as it found it,
    whatever the outcome. *)
Definition keeps {K : Kinematics} {X A : Type}
    (f : Orbita.OrbitaActuator K -> X) (m : M (Orbita.Sys K) A) : Prop :=
  forall s, f (Orbita.self (snd (m s))) = f (Orbita.self s).

(** [f] depends neither on the model nor on the cached compliancy. *)
Definition ignores_model_and_compliancy {K : Kinematics} {X : Type}
    (f : Orbita.OrbitaActuator K -> X) : Prop :=
  forall o m c,
    f {| Orbita.disk_bottom := Orbita.disk_bottom o;
         Orbita.disk_middle := Orbita.disk_middle o;
         Orbita.disk_top := Orbita.disk_top o;
         Orbita.model := m; Orbita._compliancy := c;
         Orbita._moving_speed := Orbita._moving_speed o |}
    = f o.

(** A bus on which every write to the module [bad] raises. *)
Definition bus_with_dead_module (bad : Handle) : World :=
  {| regs := ∅; sensor := at_rest; nreads := 0;
     fails := fun op => match op with
                        | BWrite d _ _ => Nat.eqb d bad
                        | _ => false
                        end;
     log := [] |}.

(* ------------------------------------------------------------------ *)
(** ** Stall detection, in the words of the specification               *)
(* ------------------------------------------------------------------ *)

(** The [k]-th velocity sample of a run whose first poll is the sensor
    read number [base]: one rot_speed per disk, read in the order of
    [ds]. *)
Definition sample (feed : nat -> Handle -> Attr -> Q) (ds : list Handle)
    (base k : nat) : list Q :=
  imap (fun i d => feed (i + (length ds * k + base))%nat d attr.rot_speed) ds.

(** The samples kept once [k] samples have been taken: the last ten of
    them, or all of them while there are fewer than ten. *)
Definition seen (feed : nat -> Handle -> Attr -> Q) (ds : list Handle)
    (base k : nat) : list (list Q) :=
  map (sample feed ds base) (seq (k - 10) (Nat.min k 10)).

(** The sliding window at poll [k]: the samples [k - 9 .. k]. *)
Definition window (feed : nat -> Handle -> Attr -> Q) (ds : list Handle)
    (base k : nat) : list (list Q) :=
  seen feed ds base (S k).

Definition mean (l : list Q) : Q :=
  Qsum l / inject_Z (Z.of_nat (length l)).

(** The velocities of disk number [i] in a list of samples. *)
Definition column (i : nat) (rows : list (list Q)) : list Q :=
  map (fun row => nth i row 0) rows.

(** At poll [k] the mean velocity over the window is non-negative for
    every disk. *)
Definition stalled (feed : nat -> Handle -> Attr -> Q) (ds : list Handle)
    (base k : nat) : bool :=
  forallb (fun i => Qle_bool 0 (mean (column i (window feed ds base k))))
          (seq 0 (length ds)).

(** One poll of the three velocities. *)
Definition polls (ds : list Handle) : list Event :=
  map (fun d => EBus (BRead d attr.rot_speed)) ds.

(** The events of [m] polls that do not end the loop, each followed by
    its sleep, and of the poll that ends it. *)
Fixpoint stall_log (ds : list Handle) (m : nat) : list Event :=
  match m with
  | O => polls ds
  | S m' => polls ds ++ ESleep 0.01 :: stall_log ds m'
  end.

(** How many times the log shows [reset_last_angles]. *)
Fixpoint resets (l : list Event) : nat :=
  match l with
  | [] => 0
  | EResetLastAngles :: l' => S (resets l')
  | _ :: l' => resets l'
  end.

(** How many times the log shows [time.sleep]. *)
Fixpoint sleeps (l : list Event) : nat :=
  match l with
  | [] => 0
  | ESleep _ :: l' => S (sleeps l')
  | _ :: l' => sleeps l'
  end.

(** The actuator [o] on a bus with sensors [feed] and failures [fl], when
    the registers are [rg], [nr] sensor reads are done and the log is
    [lg]. *)
Definition at_poll {K : Kinematics} (o : Orbita.OrbitaActuator K)
    (feed : nat -> Handle -> Attr -> Q) (fl : BusOp -> bool)
    (rg : gmap (Handle * Attr) Value) (nr : nat) (lg : list Event)
    : Orbita.Sys K :=
  {| Orbita.self := o;
     Orbita.bus := {| regs := rg; sensor := feed; nreads := nr; fails := fl;
                      log := lg |} |}.

(** Sensors of a run in which the three disks turn backwards (velocity -1)
    for the first fifteen polls and stand still afterwards. *)
Definition hits_the_stop : nat -> Handle -> Attr -> Q :=
  fun i _ _ => if (i <? 45)%nat then - 1 else 0.

(** [setToZero] on each disk. *)
Definition zeroes (ds : list Handle) : list Event :=
  map (fun d => EBus (BSetToZero d)) ds.

(** What a run of [homing] whose loop ends at poll [n] leaves in the log,
    up to the last operation it performs; [a], [b], [c] are the angles the
    solver returns for the identity. *)
Definition homing_log (ds : list Handle) (speed limit_pos target_pos : Q)
    (n : nat) (a b c : Q) : list Event :=
  zeroes ds
  ++ ESleep 0.1
  :: map (fun d => EBus (BWrite d attr.compliant (VBool false))) ds
  ++ ESleep 0.1
  :: flat_map (fun d =>
       [EBus (BWrite d attr.target_rot_speed (VNum speed));
        EBus (BWrite d attr.target_rot_position (VNum limit_pos))]) ds
  ++ ESleep 1
  :: stall_log ds n
  ++ zeroes ds
  ++ ESleep 1
  :: writes attr.target_rot_position (map (fun d => (d, target_pos)) ds)
  ++ ESleep (target_pos / speed + 0.25)
  :: zeroes ds
  ++ ESleep 0.1
  :: EResetLastAngles
  :: EAnglesFromQuaternion 1 0 0 0
  :: writes attr.target_rot_position (combine ds [- a; - b; - c]).

(* ------------------------------------------------------------------ *)
(** ** Predicates for the remaining methods                             *)
(* ------------------------------------------------------------------ *)

(** The action leaves the quantity [f] of the state as it found it,
    whatever the outcome. *)
Definition preserves {S A X : Type} (f : S -> X) (m : M S A) : Prop :=
  forall s, f (snd (m s)) = f s.

(** What the actuator and the bus say about compliance: the cached flag
    and the compliant attribute of the module [d]. *)
Definition compliance {K : Kinematics} (d : Handle) (s : Orbita.Sys K)
    : bool * option Value :=
  (Orbita.compliant (Orbita.self s),
   regs (Orbita.bus s) !! (d, attr.compliant)).

(** What [setup] does to one disk, in order. *)
Definition setup_log (pid : list Q) (reduction wheel_size encoder_res : Q)
    (moving_speed : Q) (disk : Handle) : list Event :=
  [EBus (BWrite disk attr.limit_current (VNum 0.4));
   EBus (BWrite disk attr.encoder_res (VNum encoder_res));
   EBus (BWrite disk attr.reduction (VNum reduction));
   EBus (BWrite disk attr.wheel_size (VNum wheel_size));
   EBus (BWrite disk attr.positionPid (VList pid));
   EBus (BWrite disk attr.rot_position_mode (VBool true));
   EBus (BWrite disk attr.rot_speed_mode (VBool true));
   EBus (BWrite disk attr.rot_position (VBool true));
   EBus (BWrite disk attr.rot_speed (VBool true));
   EBus (BSetToZero disk);
   ESleep 0.1;
   EBus (BWrite disk attr.target_rot_speed (VNum moving_speed))].

(** A kinematics model whose solvers always raise. *)
Definition failing_solver (e : PyError) : Kinematics :=
  {| Model := nat; Geometry := unit;
     OrbitaModel := fun _ => O;
     get_angles_from_vector := fun m _ _ => (Raise e, m);
     get_angles_from_quaternion := fun m _ _ _ _ => (Raise e, m);
     reset_last_angles := fun m => S m |}.

(** An actuator on handles 1, 2, 3 over the failing model. *)
Definition stuck_neck (e : PyError)
    : Orbita.OrbitaActuator (failing_solver e) :=
  {| Orbita.disk_bottom := 1%nat; Orbita.disk_middle := 2%nat;
     Orbita.disk_top := 3%nat; Orbita.model := O : Model (failing_solver e);
     Orbita._compliancy := false; Orbita._moving_speed := 50 |}.

(** A bus on which every read of the module [bad] raises. *)
Definition bus_with_blind_module (bad : Handle) : World :=
  {| regs := ∅; sensor := at_rest; nreads := 0;
     fails := fun op => match op with
                        | BRead d _ => Nat.eqb d bad
                        | _ => false
                        end;
     log := [] |}.


(** The events of [m] polls none of which ends the loop. *)
Fixpoint going_log (ds : list Handle) (m : nat) : list Event :=
  match m with
  | O => []
  | S m' => polls ds ++ ESleep 0.01 :: going_log ds m'
  end.

(* ------------------------------------------------------------------ *)
(** ** The stall test on binary64 velocities                            *)
(* ------------------------------------------------------------------ *)

(** The rational number a finite binary64 value stands for. *)
Definition exact_value (x : float) : Q :=
  match Prim2SF x with
  | S754_finite s m e =>
      (if s then - inject_Z (Z.pos m) else inject_Z (Z.pos m)) * Qpower 2 e
  | _ => 0
  end.

(** The loop of [homing] again, with Python's [float] arithmetic: numpy
    adds the rows of the window one after the other and divides by their
    number, in binary64. *)
Module Float64.

Definition np_sum (l : list float) : float :=
  match l with
  | [] => 0%float
  | x :: l' => fold_left PrimFloat.add l' x
  end.

Definition np_mean_axis0 (rows : list (list float)) : list float :=
  map (fun j => (np_sum (map (fun row => nth j row 0%float) rows)
                 / PrimFloat.of_uint63
                     (Uint63.of_Z (Z.of_nat (length rows))))%float)
      (seq 0 (length (hd [] rows))).

Definition np_all_ge0 (avg : list float) : bool :=
  forallb (fun x => PrimFloat.leb 0 x) avg.

(** The [while True] loop over the samples to come, entered at poll [k]:
    the poll at which it breaks, if one of them does. *)
Fixpoint stall_detection (recent_speed : deque (list float))
    (samples : list (list float)) (k : nat) : option nat :=
  match samples with
  | [] => None
  | sample :: samples' =>
      let recent_speed := deque_append recent_speed sample in
      let avg_speed := np_mean_axis0 (dq_items recent_speed) in
      if np_all_ge0 avg_speed then Some k
      else stall_detection recent_speed samples' (S k)
  end.

End Float64.

(** Sensors that replay a list of samples, one per poll, the three disks
    reading the same velocity; zero once the list is used up. *)
Definition replay (samples : list Q) : nat -> Handle -> Attr -> Q :=
  fun i _ _ => nth (i / 3) samples 0.

(** What a run of [homing] whose loop ends at poll [n] has in its log when
    it has taken the zero reference that follows the loop. *)
Definition homing_until_stalled (ds : list Handle) (speed limit_pos : Q)
    (n : nat) : list Event :=
  zeroes ds
  ++ ESleep 0.1
  :: map (fun d => EBus (BWrite d attr.compliant (VBool false))) ds
  ++ ESleep 0.1
  :: flat_map (fun d =>
       [EBus (BWrite d attr.target_rot_speed (VNum speed));
        EBus (BWrite d attr.target_rot_position (VNum limit_pos))]) ds
  ++ ESleep 1
  :: stall_log ds n
  ++ zeroes ds
  ++ [ESleep 1].

(* ------------------------------------------------------------------ *)
(** ** DynamixelMotor: the frame transform                              *)
(* ------------------------------------------------------------------ *)

Section FrameTransform.

Import Dynamixel.

Lemma as_local_pos_unfold (self : DynamixelMotor) (pos : Q) :
  _as_local_pos self pos
  = (if is_direct self then pos else - pos) - offset self.
Proof. reflexivity. Qed.

Lemma to_motor_pos_unfold (self : DynamixelMotor) (pos : Q) :
  _to_motor_pos self pos
  = (pos + offset self) * (if is_direct self then 1 else -1).
Proof. reflexivity. Qed.

(** In exact arithmetic the two transforms are inverse of each other, in
    both directions. *)
Lemma to_motor_as_local (self : DynamixelMotor) (v : Q) :
  _to_motor_pos self (_as_local_pos self v) == v.
Proof.
  unfold _to_motor_pos, _as_local_pos. destruct (is_direct self); ring.
Qed.

Lemma as_local_to_motor (self : DynamixelMotor) (v : Q) :
  _as_local_pos self (_to_motor_pos self v) == v.
Proof.
  unfold _to_motor_pos, _as_local_pos. destruct (is_direct self); ring.
Qed.

End FrameTransform.

(** C3, as stated, on binary64 floats: with offset 0.2 and a direct motor,
    the local value [v] of raw 0.1 is reachable through the transform, and
    yet sending [v] through [_as_local_pos] and back through
    [_to_motor_pos] does not give [v] again (it gives
    -0.10000000000000003 for v = -0.1). *)
Lemma frame_round_trip_rounds_on_floats :
  let v := Binary64._as_local_pos 0.2 true 0.1 in
  PrimFloat.eqb
    (Binary64._to_motor_pos 0.2 true (Binary64._as_local_pos 0.2 true v)) v
  = false.
Proof. vm_compute. reflexivity. Qed.

(** C3 (amended): for every offset, direct flag and position, the local
    value is [(direct ? r : -r) - offset] and the raw target is
    [(v + offset) * (direct ? 1 : -1)]; in exact arithmetic
    [toLocal (toRaw (toLocal r)) == toLocal r] and [toRaw (toLocal v) == v]
    for every [v]; with direct = false and offset = 10, raw 40 is local -50
    and local -50 is raw 40, in exact arithmetic and on binary64 floats
    alike. *)
Theorem frame_transform_exact_inverse :
  forall (self : Dynamixel.DynamixelMotor) (r v : Q),
    Dynamixel._as_local_pos self r
    = (if Dynamixel.is_direct self then r else - r) - Dynamixel.offset self
    /\ Dynamixel._to_motor_pos self v
       = (v + Dynamixel.offset self)
         * (if Dynamixel.is_direct self then 1 else -1)
    /\ Dynamixel._as_local_pos self
         (Dynamixel._to_motor_pos self (Dynamixel._as_local_pos self r))
       == Dynamixel._as_local_pos self r
    /\ Dynamixel._to_motor_pos self (Dynamixel._as_local_pos self v) == v
    /\ Dynamixel._as_local_pos elbow 40 == -50
    /\ Dynamixel._to_motor_pos elbow (-50) == 40
    /\ Binary64._as_local_pos 10 false 40 = (-50)%float
    /\ Binary64._to_motor_pos 10 false (-50) = 40%float.
Proof.
  intros self r v. repeat split.
  - rewrite as_local_to_motor. reflexivity.
  - apply to_motor_as_local.
Qed.

(* ------------------------------------------------------------------ *)
(** ** DynamixelMotor.goto: the interpolation mode                      *)
(* ------------------------------------------------------------------ *)

Section Goto.

Import Dynamixel.

Lemma available_modes :
  tuple_repr (keys interpolations) = "('linear', 'minjerk')"%string.
Proof. reflexivity. Qed.

Lemma contains_modes (mode : string) :
  contains (keys interpolations) mode = true
  <-> mode = "linear"%string \/ mode = "minjerk"%string.
Proof.
  unfold contains, keys, interpolations. cbn [map fst existsb].
  rewrite !orb_true_iff, !String.eqb_eq. intuition discriminate.
Qed.

Lemma getitem_modes (mode : string) :
  contains (keys interpolations) mode = true ->
  exists cls, getitem interpolations mode = Some cls.
Proof.
  intros [-> | ->]%contains_modes; eexists; reflexivity.
Qed.

(** Nothing below the name check raises a ValueError. *)
Lemma nve_bind {S A B} (m : M S A) (k : A -> M S B) :
  never_ValueError m -> (forall a, never_ValueError (k a)) ->
  never_ValueError (bind m k).
Proof.
  intros Hm Hk s msg. unfold bind. specialize (Hm s msg).
  destruct (m s) as [[a| |] s']; cbn [fst] in *.
  - apply Hk.
  - intros [= ->]. apply Hm. reflexivity.
  - discriminate.
Qed.

Lemma nve_ret {S A} (a : A) : never_ValueError (@ret S A a).
Proof. intros s msg. discriminate. Qed.

Lemma nve_read d a : never_ValueError (read d a).
Proof.
  intros w msg. unfold read. destruct (fails w _); [discriminate|].
  destruct (is_sensor a); discriminate.
Qed.

Lemma nve_as_num {S} v : never_ValueError (@as_num S v).
Proof. intros s msg. destruct v; discriminate. Qed.

Lemma nve_getattr self p : never_ValueError (getattr self p).
Proof.
  destruct p; cbn [getattr];
    unfold present_position, goal_position, moving_speed, compliant,
      torque_limit, temperature;
    repeat first [ apply nve_ret | apply nve_read | apply nve_as_num
                 | apply nve_bind; [|intros ?] ].
Qed.

End Goto.

(** C2, as stated: "minimum-jerk", a member of the set the claim gives, is
    refused, and "minjerk", which is outside that set, is accepted and
    plays a MinimumJerk trajectory. *)
Lemma goto_minimum_jerk_refused :
  fst (Dynamixel.goto elbow 30 2 Dynamixel.P_present_position false
         "minimum-jerk" (sound_bus at_rest))
  = Raise (ValueError
             "interpolation_mode should be one of ('linear', 'minjerk')")
  /\ exists p,
      fst (Dynamixel.goto elbow 30 2 Dynamixel.P_present_position false
             "minjerk" (sound_bus at_rest)) = Ok p
      /\ tp_class p = MinimumJerk.
Proof.
  split; [reflexivity|]. eexists. split; reflexivity.
Qed.

(** C2 (amended): goto resolves the interpolation mode against exactly the
    set {"linear", "minjerk"}: a name outside it makes goto raise the
    ValueError whose message lists ('linear', 'minjerk'), with the world
    (registers, reads, log) left as it was; a name inside it never raises a
    ValueError. *)
Theorem goto_resolves_interpolation_mode :
  forall (self : Dynamixel.DynamixelMotor) (goal duration : Q)
         (starting_point : Dynamixel.Property) (wait : bool)
         (mode : string) (w : World),
    (~ (mode = "linear"%string \/ mode = "minjerk"%string) ->
     Dynamixel.goto self goal duration starting_point wait mode w
     = (Raise (ValueError
          "interpolation_mode should be one of ('linear', 'minjerk')"), w))
    /\ (mode = "linear"%string \/ mode = "minjerk"%string ->
        forall msg,
          fst (Dynamixel.goto self goal duration starting_point wait mode w)
          <> Raise (ValueError msg)).
Proof.
  intros self goal duration sp wt mode w. split.
  - intros Hout. unfold Dynamixel.goto.
    destruct (Dynamixel.contains _ mode) eqn:Hin.
    + apply contains_modes in Hin. contradiction.
    + reflexivity.
  - intros Hin msg. unfold Dynamixel.goto.
    pose proof (proj2 (contains_modes mode) Hin) as Hc. rewrite Hc.
    destruct (getitem_modes mode Hc) as [cls ->]. cbn [negb].
    apply nve_bind; [apply nve_getattr|]. intros start.
    apply nve_bind; [intros ? ?; discriminate|]. intros _.
    apply nve_bind; [destruct wt; intros ? ?; discriminate|]. intros _.
    apply nve_ret.
Qed.

(** The theorem at "bogus" on a sound bus, and at "linear". *)
Lemma goto_resolves_interpolation_mode_witness :
  Dynamixel.goto elbow 30 2 Dynamixel.P_present_position false "bogus"
    (sound_bus at_rest)
  = (Raise (ValueError
       "interpolation_mode should be one of ('linear', 'minjerk')"),
     sound_bus at_rest)
  /\ fst (Dynamixel.goto elbow 30 2 Dynamixel.P_present_position false
            "linear" (sound_bus at_rest))
     <> Raise (ValueError "anything").
Proof.
  split.
  - apply (proj1 (goto_resolves_interpolation_mode elbow 30 2
                    Dynamixel.P_present_position false "bogus"
                    (sound_bus at_rest))).
    intros [H | H]; discriminate H.
  - apply (proj2 (goto_resolves_interpolation_mode elbow 30 2
                    Dynamixel.P_present_position false "linear"
                    (sound_bus at_rest))).
    left. reflexivity.
Defined.

(* ------------------------------------------------------------------ *)
(** ** OrbitaActuator on a sound bus                                    *)
(* ------------------------------------------------------------------ *)

(** Symbolic execution of a method: [run_py] unfolds the monad and the
    bus operations; on a sound bus [run_bus Hs] also decides each failure
    test with [Hs]. *)
Ltac run_py :=
  cbv [bind ret raise for_each comprehension combine map fst snd as_num
       Orbita.on_bus Orbita.self_disks Orbita.disks Orbita.assign
       Orbita.call_model Orbita.compliant Orbita.moving_speed
       Orbita.self Orbita.bus Orbita.disk_top Orbita.disk_middle
       Orbita.disk_bottom Orbita.model Orbita._compliancy
       Orbita._moving_speed
       write read setToZero sleep truediv
       regs sensor nreads fails log record is_sensor].

(** The fixed delays of the file are legal sleep lengths. *)
Lemma nonneg_tenth : Qle_bool 0 0.1 = true.
Proof. reflexivity. Qed.

Lemma nonneg_hundredth : Qle_bool 0 0.01 = true.
Proof. reflexivity. Qed.

Lemma nonneg_one : Qle_bool 0 1 = true.
Proof. reflexivity. Qed.

Ltac run_bus Hs :=
  repeat (run_py;
          rewrite ?Hs, ?nonneg_tenth, ?nonneg_hundredth, ?nonneg_one).

Section SoundBus.

Context (K : Kinematics).


Lemma Qpositive_true (q : Q) : 0 < q -> Orbita.Qpositive q = true.
Proof.
  intros H. unfold Orbita.Qpositive.
  destruct (Qle_bool q 0) eqn:E; [|reflexivity].
  apply Qle_bool_iff in E. exfalso. exact (Qlt_not_le _ _ H E).
Qed.

Lemma Qpositive_false (q : Q) : q <= 0 -> Orbita.Qpositive q = false.
Proof.
  intros H. unfold Orbita.Qpositive.
  apply Qle_bool_iff in H. rewrite H. reflexivity.
Qed.

Lemma Qeq_bool_positive (q : Q) : 0 < q -> Qeq_bool q 0 = false.
Proof.
  intros H. destruct (Qeq_bool q 0) eqn:E; [|reflexivity].
  apply Qeq_bool_eq in E. rewrite E in H. exfalso. exact (Qlt_irrefl _ H).
Qed.

Lemma Qle_bool_nonneg (q : Q) : 0 <= q -> Qle_bool 0 q = true.
Proof. apply Qle_bool_iff. Qed.

Lemma Qle_bool_negative (q : Q) : q < 0 -> Qle_bool 0 q = false.
Proof.
  intros H. destruct (Qle_bool 0 q) eqn:E; [|reflexivity].
  apply Qle_bool_iff in E. exfalso. exact (Qlt_not_le _ _ H E).
Qed.

Lemma speed_nonneg (target present duration : Q) :
  0 < duration -> 0 <= Qabs (target - present) / duration.
Proof.
  intros H. apply Qle_shift_div_l; [exact H|].
  rewrite Qmult_0_l. apply Qabs_nonneg.
Qed.

(** C7: on a sound bus, when the solver returns [a; b; c] and
    duration > 0, orient reads rot_position of the three disks, then sets
    target_rot_speed of each disk to |target - present| / duration, where
    the target is the negated solver angle, and only then writes the three
    target_rot_position; each of these speeds is non-negative.  A disk at
    0 sent to 1 in 2 seconds gets the speed 1/2. *)
Theorem orient_sets_speed_before_target :
  forall (s : Orbita.Sys K) (quat : Quaternion) (duration : Q)
         (wait : bool) (a b c : Q) (m' : Model K),
    sound (Orbita.bus s) ->
    get_angles_from_quaternion K (Orbita.model (Orbita.self s))
      (quat_w quat) (quat_x quat) (quat_y quat) (quat_z quat)
    = (Ok [a; b; c], m') ->
    0 < duration ->
    let ds := Orbita.disks (Orbita.self s) in
    let w := Orbita.bus s in
    let n := nreads w in
    let speeds :=
      [Qabs (- a - sensor w n (Orbita.disk_top (Orbita.self s))
                     attr.rot_position) / duration;
       Qabs (- b - sensor w (S n) (Orbita.disk_middle (Orbita.self s))
                     attr.rot_position) / duration;
       Qabs (- c - sensor w (S (S n)) (Orbita.disk_bottom (Orbita.self s))
                     attr.rot_position) / duration] in
    exists s',
      Orbita.orient K quat duration wait s = (Ok tt, s')
      /\ log (Orbita.bus s')
         = log w
           ++ EAnglesFromQuaternion (quat_w quat) (quat_x quat)
                (quat_y quat) (quat_z quat)
              :: map (fun d => EBus (BRead d attr.rot_position)) ds
           ++ writes attr.target_rot_speed (combine ds speeds)
           ++ writes attr.target_rot_position (combine ds [- a; - b; - c])
           ++ (if wait then [ESleep duration] else [])
      /\ Forall (fun speed => 0 <= speed) speeds.
Proof.
  intros [[db dm dt m0 c0 v0] [rg sn nr fl lg]] quat duration wait a b c m'
         Hs Hsolve Hpos ds w n speeds.
  subst ds w n speeds. unfold sound in Hs. cbn in Hs, Hsolve.
  unfold Orbita.orient. run_py. rewrite Hsolve.
  rewrite (Qpositive_true _ Hpos). run_bus Hs.
  rewrite (Qeq_bool_positive _ Hpos). run_bus Hs.
  destruct wait; [rewrite (Qle_bool_nonneg _ (Qlt_le_weak _ _ Hpos))|];
    (eexists; split; [reflexivity|]; split;
     [cbn [writes map app]; rewrite <- ?app_assoc; reflexivity
     |repeat (apply List.Forall_cons; [apply speed_nonneg; exact Hpos|]);
      apply List.Forall_nil]).
Qed.

(** C6 on the code: on a sound bus, orient with wait = true and a negative
    duration (the default -1 is one) writes the three position targets and
    then raises ValueError out of time.sleep; it does not return. *)
Theorem orient_wait_negative_duration_raises :
  forall (s : Orbita.Sys K) (quat : Quaternion) (duration : Q)
         (a b c : Q) (m' : Model K),
    sound (Orbita.bus s) ->
    get_angles_from_quaternion K (Orbita.model (Orbita.self s))
      (quat_w quat) (quat_x quat) (quat_y quat) (quat_z quat)
    = (Ok [a; b; c], m') ->
    duration < 0 ->
    exists s',
      Orbita.orient K quat duration true s
      = (Raise (ValueError "sleep length must be non-negative"), s')
      /\ log (Orbita.bus s')
         = log (Orbita.bus s)
           ++ EAnglesFromQuaternion (quat_w quat) (quat_x quat)
                (quat_y quat) (quat_z quat)
              :: writes attr.target_rot_position
                   (combine (Orbita.disks (Orbita.self s))
                            [- a; - b; - c]).
Proof.
  intros [[db dm dt m0 c0 v0] [rg sn nr fl lg]] quat duration a b c m'
         Hs Hsolve Hneg.
  unfold sound in Hs. cbn in Hs, Hsolve |- *.
  unfold Orbita.orient. run_py. rewrite Hsolve.
  rewrite (Qpositive_false _ (Qlt_le_weak _ _ Hneg)). run_bus Hs.
  rewrite (Qle_bool_negative _ Hneg).
  eexists. split; [reflexivity|]. cbn. rewrite <- !app_assoc. reflexivity.
Qed.

(** After orient with duration > 0 on distinct disks, each disk is left
    with the target speed computed for the move. *)
Lemma orient_target_speeds (s : Orbita.Sys K) (quat : Quaternion)
    (duration : Q) (wait : bool) (a b c : Q) (m' : Model K) :
  sound (Orbita.bus s) ->
  NoDup (Orbita.disks (Orbita.self s)) ->
  get_angles_from_quaternion K (Orbita.model (Orbita.self s))
    (quat_w quat) (quat_x quat) (quat_y quat) (quat_z quat)
  = (Ok [a; b; c], m') ->
  0 < duration ->
  let w := Orbita.bus s in
  let n := nreads w in
  let rg' := regs (Orbita.bus (snd (Orbita.orient K quat duration wait s))) in
  rg' !! (Orbita.disk_top (Orbita.self s), attr.target_rot_speed)
  = Some (VNum (Qabs (- a - sensor w n (Orbita.disk_top (Orbita.self s))
                                attr.rot_position) / duration))
  /\ rg' !! (Orbita.disk_middle (Orbita.self s), attr.target_rot_speed)
     = Some (VNum (Qabs (- b - sensor w (S n)
                                  (Orbita.disk_middle (Orbita.self s))
                                  attr.rot_position) / duration))
  /\ rg' !! (Orbita.disk_bottom (Orbita.self s), attr.target_rot_speed)
     = Some (VNum (Qabs (- c - sensor w (S (S n))
                                  (Orbita.disk_bottom (Orbita.self s))
                                  attr.rot_position) / duration)).
Proof.
  destruct s as [[db dm dt m0 c0 v0] [rg sn nr fl lg]].
  intros Hs Hnd Hsolve Hpos w n rg'. subst w n rg'.
  unfold sound in Hs. cbn in Hs, Hsolve.
  cbv [Orbita.disks Orbita.disk_top Orbita.disk_middle Orbita.disk_bottom
       Orbita.self] in Hnd.
  apply NoDup_cons in Hnd as [Htop Hnd].
  apply NoDup_cons in Hnd as [Hmid _].
  apply not_elem_of_cons in Htop as [Htm Htb].
  apply not_elem_of_cons in Htb as [Htb _].
  apply not_elem_of_cons in Hmid as [Hmb _].
  unfold Orbita.orient. run_py. rewrite Hsolve.
  rewrite (Qpositive_true _ Hpos). run_bus Hs.
  rewrite (Qeq_bool_positive _ Hpos). run_bus Hs.
  destruct wait; [rewrite (Qle_bool_nonneg _ (Qlt_le_weak _ _ Hpos))|];
    run_py;
    repeat split;
    repeat (rewrite lookup_insert; case_decide;
            [simplify_eq; try reflexivity|]);
    congruence.
Qed.

End SoundBus.


(** The theorem at three disks at rest sent to angle 1 (the solver returns
    -1) in 2 seconds: each disk gets the speed 1/2 = 0.5 before its
    target. *)
Lemma orient_sets_speed_before_target_witness :
  exists s',
    Orbita.orient (stub_solver [- 1; - 1; - 1])
      {| quat_w := 1; quat_x := 0; quat_y := 0; quat_z := 0 |} 2 false
      {| Orbita.self := neck [- 1; - 1; - 1];
         Orbita.bus := sound_bus at_rest |}
    = (Ok tt, s')
    /\ log (Orbita.bus s')
       = [EAnglesFromQuaternion 1 0 0 0;
          EBus (BRead 3%nat attr.rot_position);
          EBus (BRead 2%nat attr.rot_position);
          EBus (BRead 1%nat attr.rot_position);
          EBus (BWrite 3%nat attr.target_rot_speed (VNum (1 # 2)));
          EBus (BWrite 2%nat attr.target_rot_speed (VNum (1 # 2)));
          EBus (BWrite 1%nat attr.target_rot_speed (VNum (1 # 2)));
          EBus (BWrite 3%nat attr.target_rot_position (VNum 1));
          EBus (BWrite 2%nat attr.target_rot_position (VNum 1));
          EBus (BWrite 1%nat attr.target_rot_position (VNum 1))]
    /\ 1 # 2 == 0.5.
Proof.
  destruct (orient_sets_speed_before_target (stub_solver [- 1; - 1; - 1])
              {| Orbita.self := neck [- 1; - 1; - 1];
                 Orbita.bus := sound_bus at_rest |}
              {| quat_w := 1; quat_x := 0; quat_y := 0; quat_z := 0 |}
              2 false (- 1) (- 1) (- 1) O) as (s' & Hrun & Hlog & _).
  - intros op. reflexivity.
  - reflexivity.
  - reflexivity.
  - exists s'. split; [exact Hrun|]. split; [exact Hlog | reflexivity].
Defined.

(** The theorem at the default duration: orient(quat, wait=True) raises
    after writing the targets. *)
Lemma orient_wait_negative_duration_raises_witness :
  exists s',
    Orbita.orient (stub_solver [1; 2; 3])
      {| quat_w := 1; quat_x := 0; quat_y := 0; quat_z := 0 |}
      (Orbita.default_duration) true
      {| Orbita.self := neck [1; 2; 3]; Orbita.bus := sound_bus at_rest |}
    = (Raise (ValueError "sleep length must be non-negative"), s')
    /\ log (Orbita.bus s')
       = [EAnglesFromQuaternion 1 0 0 0;
          EBus (BWrite 3%nat attr.target_rot_position (VNum (- 1)));
          EBus (BWrite 2%nat attr.target_rot_position (VNum (- 2)));
          EBus (BWrite 1%nat attr.target_rot_position (VNum (- 3)))].
Proof.
  destruct (orient_wait_negative_duration_raises (stub_solver [1; 2; 3])
              {| Orbita.self := neck [1; 2; 3];
                 Orbita.bus := sound_bus at_rest |}
              {| quat_w := 1; quat_x := 0; quat_y := 0; quat_z := 0 |}
              Orbita.default_duration 1 2 3 O) as (s' & Hrun & Hlog).
  - intros op. reflexivity.
  - reflexivity.
  - reflexivity.
  - exists s'. split; [exact Hrun | exact Hlog].
Defined.

(* ------------------------------------------------------------------ *)
(** ** What the methods leave untouched                                 *)
(* ------------------------------------------------------------------ *)

Section Keeps.

Context {K : Kinematics} {X : Type} (f : Orbita.OrbitaActuator K -> X).

Lemma keeps_bind {A B} (m : M (Orbita.Sys K) A) (k : A -> M (Orbita.Sys K) B) :
  keeps f m -> (forall a, keeps f (k a)) -> keeps f (bind m k).
Proof.
  intros Hm Hk s. unfold bind. specialize (Hm s).
  destruct (m s) as [[a| |] s1]; cbn [snd] in *; [|assumption..].
  rewrite Hk. exact Hm.
Qed.

Lemma keeps_ret {A} (a : A) : keeps f (ret a).
Proof. intros s. reflexivity. Qed.

Lemma keeps_raise {A} e : keeps f (@raise _ A e).
Proof. intros s. reflexivity. Qed.

Lemma keeps_on_bus {A} (m : M World A) : keeps f (Orbita.on_bus K m).
Proof. intros s. unfold Orbita.on_bus. destruct (m _). reflexivity. Qed.

Lemma keeps_self_disks : keeps f (Orbita.self_disks K).
Proof. intros s. reflexivity. Qed.

Lemma keeps_as_num v : keeps f (as_num v).
Proof. intros s. destruct v; reflexivity. Qed.

Lemma keeps_truediv a b : keeps f (truediv a b).
Proof. intros s. unfold truediv. destruct (Qeq_bool b 0); reflexivity. Qed.

Lemma keeps_for_each {A} (l : list A) body :
  (forall x, keeps f (body x)) -> keeps f (for_each l body).
Proof.
  intros Hb. induction l as [|x l IH]; cbn [for_each].
  - apply keeps_ret.
  - apply keeps_bind; [apply Hb | intros _; exact IH].
Qed.

Lemma keeps_comprehension {A B} (l : list A) (g : A -> M (Orbita.Sys K) B) :
  (forall x, keeps f (g x)) -> keeps f (comprehension l g).
Proof.
  intros Hg. induction l as [|x l IH]; cbn [comprehension].
  - apply keeps_ret.
  - apply keeps_bind; [apply Hg | intros y].
    apply keeps_bind; [exact IH | intros ys; apply keeps_ret].
Qed.

Lemma keeps_call_model e g :
  ignores_model_and_compliancy f -> keeps f (Orbita.call_model K e g).
Proof.
  intros Hf s. unfold Orbita.call_model. destruct (g _) as [r m'].
  cbn [snd Orbita.self]. apply Hf.
Qed.

Lemma keeps_set_compliant c :
  ignores_model_and_compliancy f -> keeps f (Orbita.set_compliant K c).
Proof.
  intros Hf. unfold Orbita.set_compliant.
  apply keeps_bind; [intros s; cbn; apply Hf | intros _].
  apply keeps_bind; [apply keeps_self_disks | intros ds].
  apply keeps_for_each. intros d. apply keeps_on_bus.
Qed.

Ltac keeps_step :=
  first [ apply keeps_ret | apply keeps_raise | apply keeps_on_bus
        | apply keeps_self_disks | apply keeps_as_num | apply keeps_truediv
        | apply keeps_call_model; assumption
        | apply keeps_set_compliant; assumption
        | apply keeps_for_each; intros ?
        | apply keeps_comprehension; intros ?
        | apply keeps_bind; [|intros ?]
        | match goal with |- keeps _ (let '(_, _) := ?p in _) =>
            destruct p end
        | match goal with |- keeps _ (if ?b then _ else _) =>
            destruct b end ].

Lemma keeps_setup pid reduction wheel_size encoder_res speed :
  keeps f (Orbita.setup K pid reduction wheel_size encoder_res speed).
Proof. unfold Orbita.setup. repeat keeps_step. Qed.

Lemma keeps_orient quat duration wait :
  ignores_model_and_compliancy f ->
  keeps f (Orbita.orient K quat duration wait).
Proof. intros Hf. unfold Orbita.orient. repeat keeps_step. Qed.

Lemma keeps_stall_detection fuel dq :
  keeps f (Orbita.stall_detection K fuel dq).
Proof.
  revert dq. induction fuel as [|fuel IH]; intros dq.
  - intros s. reflexivity.
  - cbn [Orbita.stall_detection].
    apply keeps_bind; [apply keeps_self_disks | intros ds].
    apply keeps_bind; [repeat keeps_step | intros sample].
    destruct (np_all_ge0 _); [apply keeps_ret|].
    apply keeps_bind; [apply keeps_on_bus | intros _; apply IH].
Qed.

Lemma keeps_homing fuel speed limit_pos target_pos :
  ignores_model_and_compliancy f ->
  keeps f (Orbita.homing K fuel speed limit_pos target_pos).
Proof.
  intros Hf. unfold Orbita.homing.
  repeat first [ apply keeps_stall_detection
               | apply keeps_orient; assumption
               | match goal with
                 | |- keeps _ (Orbita.assign _ _) => intros s; cbn; apply Hf
                 end
               | keeps_step ].
Qed.

End Keeps.

Lemma moving_speed_ignores {K : Kinematics} :
  ignores_model_and_compliancy (@Orbita.moving_speed K).
Proof. intros o m c. reflexivity. Qed.

(* ------------------------------------------------------------------ *)
(** ** OrbitaActuator: construction and the order of the disks          *)
(* ------------------------------------------------------------------ *)

(** C1, as stated: built from the handles 1, 2, 3 in that order, the
    actuator has disks() = [3; 2; 1]: the first handle passed is the
    bottom disk, not the top one. *)
Lemma first_handle_is_bottom_disk :
  exists o,
    fst (Orbita.__init__ (stub_solver [1; 2; 3]) [1; 2; 3]%nat tt [1; 0; 0]
           1 1 1 (sound_bus at_rest)) = Ok o
    /\ Orbita.disks o = [3; 2; 1]%nat
    /\ Orbita.disks o <> [1; 2; 3]%nat.
Proof.
  eexists. split; [vm_compute; reflexivity|]. split; [reflexivity|].
  discriminate.
Qed.

(** C1 (amended): the constructor takes its three disk handles in
    bottom/middle/top order: every constructed actuator was given exactly
    three handles, and disks() returns [top; middle; bottom] where top is
    the third handle passed, middle the second and bottom the first.  On a
    sound bus the construction from three handles succeeds. *)
Theorem disks_order_of_constructed_actuator :
  forall (K : Kinematics) (luos_disks_motor : list Handle)
         (geometry : Geometry K) (pid : list Q)
         (reduction wheel_size encoder_res : Q) (w : World),
    (forall o w',
       Orbita.__init__ K luos_disks_motor geometry pid reduction wheel_size
         encoder_res w = (Ok o, w') ->
       exists first second third,
         luos_disks_motor = [first; second; third]
         /\ Orbita.disk_top o = third
         /\ Orbita.disk_middle o = second
         /\ Orbita.disk_bottom o = first
         /\ Orbita.disks o = [third; second; first])
    /\ (sound w ->
        forall first second third,
          luos_disks_motor = [first; second; third] ->
          exists o w',
            Orbita.__init__ K luos_disks_motor geometry pid reduction
              wheel_size encoder_res w = (Ok o, w')).
Proof.
  intros K hs geometry pid reduction wheel_size encoder_res w. split.
  - intros o w' Hinit.
    destruct hs as [|b [|m [|t [|x hs]]]]; try discriminate Hinit.
    cbn [Orbita.__init__] in Hinit.
    match type of Hinit with
    | context [Orbita.setup K ?p ?r ?ws ?er ?ms ?s0] =>
        pose proof (keeps_setup (fun o => o) p r ws er ms s0) as Hkeep;
        destruct (Orbita.setup K p r ws er ms s0) as [[[]| |] s1]
    end; try discriminate Hinit.
    cbn [snd Orbita.self] in Hkeep. injection Hinit as <- <-.
    rewrite Hkeep. exists b, m, t. repeat split.
  - intros Hs b m t ->. destruct w as [rg sn nr fl lg].
    unfold sound in Hs. cbn in Hs.
    cbn [Orbita.__init__]. unfold Orbita.setup. run_bus Hs.
    eexists. eexists. reflexivity.
Qed.

(** The theorem at the handles 1, 2, 3 on a sound bus. *)
Lemma disks_order_of_constructed_actuator_witness :
  exists o w',
    Orbita.__init__ (stub_solver [1; 2; 3]) [1; 2; 3]%nat tt [1; 0; 0]
      1 1 1 (sound_bus at_rest) = (Ok o, w')
    /\ Orbita.disks o = [3; 2; 1]%nat.
Proof.
  destruct (proj2 (disks_order_of_constructed_actuator
                     (stub_solver [1; 2; 3]) [1; 2; 3]%nat tt [1; 0; 0]
                     1 1 1 (sound_bus at_rest))
              (fun op => eq_refl) 1%nat 2%nat 3%nat eq_refl)
    as (o & w' & Hinit).
  exists o, w'. split; [exact Hinit|].
  destruct (proj1 (disks_order_of_constructed_actuator
                     (stub_solver [1; 2; 3]) [1; 2; 3]%nat tt [1; 0; 0]
                     1 1 1 (sound_bus at_rest)) o w' Hinit)
    as (b & m & t & Hhs & _ & _ & _ & Hdisks).
  injection Hhs as <- <- <-. exact Hdisks.
Defined.

(* ------------------------------------------------------------------ *)
(** ** OrbitaActuator: a write that fails in the middle of a fan-out    *)
(* ------------------------------------------------------------------ *)

Section FanOut.

Context (K : Kinematics).

(** [for d in ds: d.a = v] when the write on [ds[k]] is the first to
    fail: the disks before [k] hold [v], every other disk holds what it
    held, and the object is untouched. *)
Lemma fan_out_first_failure (a : Attr) (v : Value) (ds : list Handle) :
  forall (k : nat) (d : Handle) (s : Orbita.Sys K),
    ds !! k = Some d ->
    fails (Orbita.bus s) (BWrite d a v) = true ->
    (forall i d', (i < k)%nat -> ds !! i = Some d' ->
                  fails (Orbita.bus s) (BWrite d' a v) = false) ->
    exists s',
      for_each ds (fun d => Orbita.on_bus K (write d a v)) s
      = (Raise (HardwareIOError (BWrite d a v)), s')
      /\ Orbita.self s' = Orbita.self s
      /\ (forall d', d' ∈ take k ds ->
                     regs (Orbita.bus s') !! (d', a) = Some v)
      /\ (forall d', d' ∉ take k ds ->
                     regs (Orbita.bus s') !! (d', a)
                     = regs (Orbita.bus s) !! (d', a)).
Proof.
  induction ds as [|d0 ds IH]; intros k d s Hk Hfail Hbefore.
  - discriminate Hk.
  - destruct k as [|k].
    + injection Hk as ->. cbn [for_each]. unfold bind, Orbita.on_bus, write.
      rewrite Hfail. eexists. split; [reflexivity|].
      cbn [Orbita.self Orbita.bus take]. split; [reflexivity|].
      split; [intros d' Hin; inversion Hin | reflexivity].
    + cbn [lookup] in Hk.
      pose proof (Hbefore O d0 ltac:(lia) eq_refl) as Hd0.
      cbn [for_each]. unfold bind at 1. unfold Orbita.on_bus at 1.
      unfold write at 1. rewrite Hd0.
      match goal with
      | |- context [for_each ds _ ?s1] =>
          destruct (IH k d s1) as (s' & Hrun & Hself & Hnew & Hold)
      end.
      * exact Hk.
      * exact Hfail.
      * intros i d' Hi Hd'. apply (Hbefore (S i) d'); [lia | exact Hd'].
      * exists s'. split; [exact Hrun|]. split; [exact Hself|].
        cbn [take Orbita.bus regs] in *. split.
        -- intros d' Hin.
           destruct (decide (d' ∈ take k ds)) as [Hin'|Hout].
           ++ apply Hnew, Hin'.
           ++ rewrite (Hold d' Hout).
              apply elem_of_cons in Hin as [-> | Hin]; [|contradiction].
              apply lookup_insert_eq.
        -- intros d' Hout. apply not_elem_of_cons in Hout as [Hne Hout].
           rewrite (Hold d' Hout). apply lookup_insert_ne. congruence.
Qed.

(** With distinct handles, the disks from [k] onward are not among the
    first [k]. *)
Lemma later_disk_not_before (ds : list Handle) (k j : nat) (d : Handle) :
  NoDup ds -> (k <= j)%nat -> ds !! j = Some d -> d ∉ take k ds.
Proof.
  intros Hnd Hkj Hj Hin.
  apply list_elem_of_lookup in Hin as [i Hi].
  pose proof (lookup_lt_Some _ _ _ Hi) as Hlt.
  rewrite length_take in Hlt.
  rewrite lookup_take_lt in Hi by lia.
  pose proof (NoDup_lookup _ _ _ _ Hnd Hi Hj). lia.
Qed.

End FanOut.

Section Setters.

Context (K : Kinematics).

(** One setter: the cached field is assigned first, then the fan-out
    runs. *)
Lemma setter_first_failure (a : Attr) (v : Value)
    (g : Orbita.OrbitaActuator K -> Orbita.OrbitaActuator K)
    (s : Orbita.Sys K) (k : nat) (d : Handle) :
  (forall o, Orbita.disks (g o) = Orbita.disks o) ->
  NoDup (Orbita.disks (Orbita.self s)) ->
  Orbita.disks (Orbita.self s) !! k = Some d ->
  fails (Orbita.bus s) (BWrite d a v) = true ->
  (forall i d', (i < k)%nat -> Orbita.disks (Orbita.self s) !! i = Some d' ->
                fails (Orbita.bus s) (BWrite d' a v) = false) ->
  exists s',
    (Orbita.assign K g ;;
     ds <- Orbita.self_disks K ;;
     for_each ds (fun d => Orbita.on_bus K (write d a v))) s
    = (Raise (HardwareIOError (BWrite d a v)), s')
    /\ Orbita.self s' = g (Orbita.self s)
    /\ (forall i d', (i < k)%nat ->
          Orbita.disks (Orbita.self s) !! i = Some d' ->
          regs (Orbita.bus s') !! (d', a) = Some v)
    /\ (forall j d', (k <= j)%nat ->
          Orbita.disks (Orbita.self s) !! j = Some d' ->
          regs (Orbita.bus s') !! (d', a)
          = regs (Orbita.bus s) !! (d', a)).
Proof.
  intros Hg Hnd Hk Hfail Hbefore.
  unfold bind at 1. unfold Orbita.assign at 1.
  unfold bind at 1. unfold Orbita.self_disks at 1. cbn [Orbita.self].
  rewrite Hg.
  destruct (fan_out_first_failure K a v (Orbita.disks (Orbita.self s)) k d
              {| Orbita.self := g (Orbita.self s);
                 Orbita.bus := Orbita.bus s |} Hk Hfail Hbefore)
    as (s' & Hrun & Hself & Hnew & Hold).
  exists s'. split; [exact Hrun|]. split; [exact Hself|].
  cbn [Orbita.bus] in *. split.
  - intros i d' Hi Hd'. apply Hnew.
    apply list_elem_of_lookup. exists i. rewrite lookup_take_lt by lia.
    exact Hd'.
  - intros j d' Hj Hd'. apply Hold.
    exact (later_disk_not_before _ _ _ _ Hnd Hj Hd').
Qed.

(** C9: in the compliant and moving_speed setters the cached field is
    assigned before any disk is written.  With three distinct disks, when
    the write on disk [k] is the first to fail, the setter raises, the
    cached value is the new setting, the disks before [k] hold the new
    setting and the disks from [k] onward hold what they held before: cache
    and hardware disagree. *)
Theorem setters_cache_before_fan_out :
  forall (s : Orbita.Sys K) (k : nat) (d : Handle),
    NoDup (Orbita.disks (Orbita.self s)) ->
    Orbita.disks (Orbita.self s) !! k = Some d ->
    (forall compliancy : bool,
       let op d := BWrite d attr.compliant (VBool compliancy) in
       fails (Orbita.bus s) (op d) = true ->
       (forall i d', (i < k)%nat ->
          Orbita.disks (Orbita.self s) !! i = Some d' ->
          fails (Orbita.bus s) (op d') = false) ->
       exists s',
         Orbita.set_compliant K compliancy s
         = (Raise (HardwareIOError (op d)), s')
         /\ Orbita.compliant (Orbita.self s') = compliancy
         /\ (forall i d', (i < k)%nat ->
               Orbita.disks (Orbita.self s) !! i = Some d' ->
               regs (Orbita.bus s') !! (d', attr.compliant)
               = Some (VBool compliancy))
         /\ (forall j d', (k <= j)%nat ->
               Orbita.disks (Orbita.self s) !! j = Some d' ->
               regs (Orbita.bus s') !! (d', attr.compliant)
               = regs (Orbita.bus s) !! (d', attr.compliant)))
    /\ (forall speed : Q,
          let op d := BWrite d attr.target_rot_speed (VNum speed) in
          fails (Orbita.bus s) (op d) = true ->
          (forall i d', (i < k)%nat ->
             Orbita.disks (Orbita.self s) !! i = Some d' ->
             fails (Orbita.bus s) (op d') = false) ->
          exists s',
            Orbita.set_moving_speed K speed s
            = (Raise (HardwareIOError (op d)), s')
            /\ Orbita.moving_speed (Orbita.self s') = speed
            /\ (forall i d', (i < k)%nat ->
                  Orbita.disks (Orbita.self s) !! i = Some d' ->
                  regs (Orbita.bus s') !! (d', attr.target_rot_speed)
                  = Some (VNum speed))
            /\ (forall j d', (k <= j)%nat ->
                  Orbita.disks (Orbita.self s) !! j = Some d' ->
                  regs (Orbita.bus s') !! (d', attr.target_rot_speed)
                  = regs (Orbita.bus s) !! (d', attr.target_rot_speed))).
Proof.
  intros s k d Hnd Hk. split.
  - intros compliancy op Hfail Hbefore. subst op.
    unfold Orbita.set_compliant.
    edestruct (setter_first_failure attr.compliant (VBool compliancy))
      as (s' & Hrun & Hself & Hnew & Hold);
      [| exact Hnd | exact Hk | exact Hfail | exact Hbefore |].
    2: { exists s'. split; [exact Hrun|]. rewrite Hself.
         split; [reflexivity|]. split; assumption. }
    intros o. reflexivity.
  - intros speed op Hfail Hbefore. subst op.
    unfold Orbita.set_moving_speed.
    edestruct (setter_first_failure attr.target_rot_speed (VNum speed))
      as (s' & Hrun & Hself & Hnew & Hold);
      [| exact Hnd | exact Hk | exact Hfail | exact Hbefore |].
    2: { exists s'. split; [exact Hrun|]. rewrite Hself.
         split; [reflexivity|]. split; assumption. }
    intros o. reflexivity.
Qed.

End Setters.

(** The theorem on a bus whose module 2 (the middle disk) refuses every
    write: compliant = True raises with the cache already True, the top
    disk compliant, and the middle and bottom disks never written. *)
Lemma setters_cache_before_fan_out_witness :
  exists s',
    Orbita.set_compliant (stub_solver [1; 2; 3]) true
      {| Orbita.self := neck [1; 2; 3];
         Orbita.bus := bus_with_dead_module 2%nat |}
    = (Raise (HardwareIOError (BWrite 2%nat attr.compliant (VBool true))),
       s')
    /\ Orbita.compliant (Orbita.self s') = true
    /\ regs (Orbita.bus s') !! (3%nat, attr.compliant) = Some (VBool true)
    /\ regs (Orbita.bus s') !! (2%nat, attr.compliant) = None
    /\ regs (Orbita.bus s') !! (1%nat, attr.compliant) = None.
Proof.
  assert (NoDup [3; 2; 1]%nat) as Hnd
    by (apply (bool_decide_unpack (NoDup [3; 2; 1]%nat)); vm_compute;
        exact I).
  destruct (proj1 (setters_cache_before_fan_out (stub_solver [1; 2; 3])
                     {| Orbita.self := neck [1; 2; 3];
                        Orbita.bus := bus_with_dead_module 2%nat |}
                     1%nat 2%nat Hnd eq_refl)
              true eq_refl)
    as (s' & Hrun & Hcache & Hnew & Hold).
  - intros i d' Hi Hd'. destruct i as [|i]; [|lia].
    injection Hd' as <-. reflexivity.
  - exists s'. split; [exact Hrun|]. split; [exact Hcache|].
    split; [exact (Hnew 0%nat 3%nat ltac:(lia) eq_refl)|].
    split.
    + exact (Hold 1%nat 2%nat ltac:(lia) eq_refl).
    + exact (Hold 2%nat 1%nat ltac:(lia) eq_refl).
Defined.

(* ------------------------------------------------------------------ *)
(** ** Homing: the stall-detection loop                                 *)
(* ------------------------------------------------------------------ *)

Section Window.

Context (feed : nat -> Handle -> Attr -> Q) (ds : list Handle) (base : nat).

Lemma length_seen k : length (seen feed ds base k) = Nat.min k 10.
Proof. unfold seen. rewrite length_map, length_seq. reflexivity. Qed.

(** The deque of the loop, one append later. *)
Lemma seen_append k :
  deque_append {| dq_items := seen feed ds base k; dq_maxlen := 10 |}
               (sample feed ds base k)
  = {| dq_items := seen feed ds base (S k); dq_maxlen := 10 |}.
Proof.
  unfold deque_append. cbn [dq_items dq_maxlen]. f_equal.
  rewrite length_app, length_seen. cbn [length].
  destruct (Nat.ltb_spec 10 (Nat.min k 10 + 1)) as [Hfull|Hroom].
  - assert (exists a, k = (10 + a)%nat) as [a ->] by (exists (k - 10)%nat; lia).
    unfold seen.
    replace (Nat.min (10 + a) 10) with 10%nat by lia.
    replace (Nat.min (S (10 + a)) 10) with 10%nat by lia.
    replace (10 + a - 10)%nat with a by lia.
    replace (S (10 + a) - 10)%nat with (S a) by lia.
    cbn [seq map app tail Nat.add]. reflexivity.
  - assert (k < 10)%nat as Hk by lia. unfold seen.
    replace (Nat.min k 10) with k by lia.
    replace (Nat.min (S k) 10) with (S k) by lia.
    replace (k - 10)%nat with O by lia.
    replace (S k - 10)%nat with O by lia.
    rewrite seq_S, map_app. reflexivity.
Qed.

Lemma length_sample k : length (sample feed ds base k) = length ds.
Proof. unfold sample. apply length_imap. Qed.

(** numpy's column means over the deque are the per-disk means over the
    window. *)
Lemma np_all_ge0_window k :
  np_all_ge0 (np_mean_axis0 (seen feed ds base (S k)))
  = stalled feed ds base k.
Proof.
  unfold np_all_ge0, np_mean_axis0, stalled, window, mean, column.
  assert (length (hd [] (seen feed ds base (S k))) = length ds) as ->.
  { unfold seen. destruct (Nat.min (S k) 10) eqn:E; [lia|].
    cbn [seq map hd]. apply length_sample. }
  generalize (seq 0 (length ds)). intros l.
  induction l as [|i l IH]; [reflexivity|].
  cbn [map forallb]. rewrite IH, length_map. reflexivity.
Qed.

End Window.

Section StallLoop.

Context (K : Kinematics).
Context (feed : nat -> Handle -> Attr -> Q) (fl : BusOp -> bool).
Context (Hs : forall op, fl op = false).
Context (o : Orbita.OrbitaActuator K) (base : nat).

(** One iteration of the loop, entered with [k] samples taken. *)
Lemma stall_detection_step fuel k rg lg :
  Orbita.stall_detection K (S fuel)
    {| dq_items := seen feed (Orbita.disks o) base k; dq_maxlen := 10 |}
    (at_poll o feed fl rg (3 * k + base) lg)
  = if stalled feed (Orbita.disks o) base k
    then (Ok tt, at_poll o feed fl rg (3 * S k + base)
                   (lg ++ polls (Orbita.disks o)))
    else Orbita.stall_detection K fuel
           {| dq_items := seen feed (Orbita.disks o) base (S k);
              dq_maxlen := 10 |}
           (at_poll o feed fl rg (3 * S k + base)
                    (lg ++ polls (Orbita.disks o) ++ [ESleep 0.01])).
Proof.
  unfold at_poll. destruct o as [db dm dt m0 c0 v0].
  cbn [Orbita.stall_detection]. run_bus Hs.
  change [feed (3 * k + base)%nat dt attr.rot_speed;
          feed (S (3 * k + base)) dm attr.rot_speed;
          feed (S (S (3 * k + base))) db attr.rot_speed]
    with (sample feed [dt; dm; db] base k).
  rewrite seen_append. cbn [dq_items]. rewrite np_all_ge0_window.
  replace (S (S (S (3 * k + base)))) with (3 * S k + base)%nat by lia.
  destruct (stalled feed [dt; dm; db] base k); run_py;
    cbn [polls map]; rewrite <- ?app_assoc; reflexivity.
Qed.

(** The loop ends at the first poll at which the window means are all
    non-negative. *)
Lemma stall_detection_exits fuel :
  forall k n rg lg,
    (k <= n)%nat -> (n - k < fuel)%nat ->
    (forall j, (k <= j < n)%nat ->
               stalled feed (Orbita.disks o) base j = false) ->
    stalled feed (Orbita.disks o) base n = true ->
    Orbita.stall_detection K fuel
      {| dq_items := seen feed (Orbita.disks o) base k; dq_maxlen := 10 |}
      (at_poll o feed fl rg (3 * k + base) lg)
    = (Ok tt, at_poll o feed fl rg (3 * S n + base)
                (lg ++ stall_log (Orbita.disks o) (n - k))).
Proof.
  induction fuel as [|fuel IH]; intros k n rg lg Hkn Hfuel Hbefore Hn;
    [lia|].
  rewrite stall_detection_step.
  destruct (Nat.eq_dec k n) as [->|Hne].
  - rewrite Hn, Nat.sub_diag. reflexivity.
  - rewrite (Hbefore k) by lia.
    rewrite (IH (S k) n) by (try lia; try assumption; intros; apply Hbefore; lia).
    replace (n - k)%nat with (S (n - S k)) by lia.
    cbn [stall_log]. rewrite <- !app_assoc. reflexivity.
Qed.

(** While no poll finds such a window, the loop goes on. *)
Lemma stall_detection_goes_on fuel :
  forall k rg lg,
    (forall j, (k <= j < k + fuel)%nat ->
               stalled feed (Orbita.disks o) base j = false) ->
    fst (Orbita.stall_detection K fuel
           {| dq_items := seen feed (Orbita.disks o) base k;
              dq_maxlen := 10 |}
           (at_poll o feed fl rg (3 * k + base) lg))
    = Running.
Proof.
  induction fuel as [|fuel IH]; intros k rg lg Hnone; [reflexivity|].
  rewrite stall_detection_step, (Hnone k) by lia.
  apply IH. intros j Hj. apply Hnone. lia.
Qed.

(** The loop as [homing] enters it: an empty deque. *)
Lemma stall_detection_from_start fuel n rg lg :
  (n < fuel)%nat ->
  (forall j, (j < n)%nat -> stalled feed (Orbita.disks o) base j = false) ->
  stalled feed (Orbita.disks o) base n = true ->
  Orbita.stall_detection K fuel {| dq_items := []; dq_maxlen := 10 |}
    (at_poll o feed fl rg base lg)
  = (Ok tt, at_poll o feed fl rg (3 * S n + base)
              (lg ++ stall_log (Orbita.disks o) n)).
Proof.
  intros Hfuel Hbefore Hn.
  pose proof (stall_detection_exits fuel O n rg lg) as H.
  rewrite Nat.sub_0_r in H. apply H; try lia; try assumption.
  intros j Hj. apply Hbefore. lia.
Qed.

End StallLoop.

Lemma sleeps_app l1 l2 : sleeps (l1 ++ l2) = (sleeps l1 + sleeps l2)%nat.
Proof.
  induction l1 as [|e l1 IH]; [reflexivity|].
  destruct e; cbn [app sleeps]; rewrite IH; reflexivity.
Qed.

Lemma resets_app l1 l2 : resets (l1 ++ l2) = (resets l1 + resets l2)%nat.
Proof.
  induction l1 as [|e l1 IH]; [reflexivity|].
  destruct e; cbn [app resets]; rewrite IH; reflexivity.
Qed.

Lemma sleeps_polls ds : sleeps (polls ds) = O.
Proof. induction ds as [|d ds IH]; [reflexivity | exact IH]. Qed.

Lemma resets_polls ds : resets (polls ds) = O.
Proof. induction ds as [|d ds IH]; [reflexivity | exact IH]. Qed.

Lemma sleeps_stall_log ds n : sleeps (stall_log ds n) = n.
Proof.
  induction n as [|n IH]; cbn [stall_log].
  - apply sleeps_polls.
  - rewrite sleeps_app, sleeps_polls. cbn [sleeps Nat.add]. rewrite IH.
    reflexivity.
Qed.

Lemma resets_stall_log ds n : resets (stall_log ds n) = O.
Proof.
  induction n as [|n IH]; cbn [stall_log].
  - apply resets_polls.
  - rewrite resets_app, resets_polls. cbn [resets Nat.add]. exact IH.
Qed.

(** The window at poll [k] is made of the samples [k - 9 .. k] and of
    nothing else. *)
Lemma stalled_depends_on_window feed feed' ds base k :
  (forall j, (k - 9 <= j <= k)%nat ->
             sample feed' ds base j = sample feed ds base j) ->
  stalled feed' ds base k = stalled feed ds base k.
Proof.
  intros Hsame. unfold stalled, window, seen.
  assert (map (sample feed' ds base) (seq (S k - 10) (Nat.min (S k) 10))
          = map (sample feed ds base) (seq (S k - 10) (Nat.min (S k) 10)))
    as ->; [|reflexivity].
  apply map_ext_in. intros j Hj. apply in_seq in Hj. apply Hsame. lia.
Qed.


(* ------------------------------------------------------------------ *)
(** ** Homing, end to end                                               *)
(* ------------------------------------------------------------------ *)

Lemma default_duration_not_positive :
  Orbita.Qpositive Orbita.default_duration = false.
Proof. reflexivity. Qed.

Lemma default_duration_negative :
  Qle_bool 0 Orbita.default_duration = false.
Proof. reflexivity. Qed.

Lemma Qeq_bool_nonzero (q : Q) : ~ q == 0 -> Qeq_bool q 0 = false.
Proof.
  intros H. destruct (Qeq_bool q 0) eqn:E; [|reflexivity].
  apply Qeq_bool_eq in E. contradiction.
Qed.

Section Homing.

Context (K : Kinematics).
Context (feed : nat -> Handle -> Attr -> Q) (fl : BusOp -> bool).
Context (Hs : forall op, fl op = false).

(** A full run of [homing] on a sound bus. *)
Lemma homing_run (o : Orbita.OrbitaActuator K) (fuel n : nat)
    (speed limit_pos target_pos a b c : Q) (m' : Model K)
    (rg : gmap (Handle * Attr) Value) (nr : nat) (lg : list Event) :
  (n < fuel)%nat ->
  stalled feed (Orbita.disks o) nr n = true ->
  (forall j, (j < n)%nat -> stalled feed (Orbita.disks o) nr j = false) ->
  ~ speed == 0 ->
  0 <= target_pos / speed + 0.25 ->
  get_angles_from_quaternion K (reset_last_angles K (Orbita.model o))
    1 0 0 0 = (Ok [a; b; c], m') ->
  exists rg',
    Orbita.homing K fuel speed limit_pos target_pos
      (at_poll o feed fl rg nr lg)
    = (Raise (ValueError "sleep length must be non-negative"),
       at_poll {| Orbita.disk_bottom := Orbita.disk_bottom o;
                  Orbita.disk_middle := Orbita.disk_middle o;
                  Orbita.disk_top := Orbita.disk_top o;
                  Orbita.model := m'; Orbita._compliancy := false;
                  Orbita._moving_speed := Orbita._moving_speed o |}
               feed fl rg' (3 * S n + nr)
               (lg ++ homing_log (Orbita.disks o) speed limit_pos
                        target_pos n a b c))
    /\ forall d, d ∈ Orbita.disks o ->
                 rg' !! (d, attr.target_rot_speed) = Some (VNum speed).
Proof.
  intros Hfuel Hn Hbefore Hspeed Hwait Hsolve.
  destruct o as [db dm dt m0 c0 v0].
  pose proof (fun rg lg =>
    stall_detection_from_start K feed fl Hs
      {| Orbita.disk_bottom := db; Orbita.disk_middle := dm;
         Orbita.disk_top := dt; Orbita.model := m0;
         Orbita._compliancy := false; Orbita._moving_speed := v0 |}
      nr fuel n rg lg Hfuel Hbefore Hn) as Hloop.
  unfold at_poll in *.
  cbv [Orbita.disks Orbita.disk_top Orbita.disk_middle Orbita.disk_bottom
       Orbita.model Orbita._moving_speed] in *.
  unfold Orbita.homing, Orbita.orient, Orbita.set_compliant. run_bus Hs.
  rewrite Hloop. run_bus Hs.
  rewrite (Qeq_bool_nonzero _ Hspeed). run_bus Hs.
  rewrite (Qle_bool_nonneg _ Hwait). run_bus Hs.
  cbn [quat_w quat_x quat_y quat_z].
  rewrite Hsolve, default_duration_not_positive. run_bus Hs.
  rewrite default_duration_negative.
  eexists. split.
  - f_equal. f_equal. f_equal.
    cbn [homing_log zeroes map flat_map app writes combine].
    rewrite <- !app_assoc. cbn [app]. reflexivity.
  - intros d Hd.
    repeat (rewrite lookup_insert_ne by (intros [= ]; discriminate)).
    repeat (apply elem_of_cons in Hd as [-> | Hd]);
      [| | |inversion Hd];
      repeat (rewrite lookup_insert; case_decide;
              [simplify_eq; reflexivity|]);
      congruence.
Qed.

End Homing.

(** C4 on the code: on a sound bus, once the stall loop has ended (at poll
    [n]) and whatever the solver answers, homing does not complete: the
    cached compliant flag is False, reset_last_angles has been called
    exactly once and the targets of the final orient(identity) have been
    written, but the blocking wait of that orient is time.sleep(-1), which
    raises ValueError; nothing follows the three target writes in the
    log. *)
Theorem homing_raises_at_final_wait :
  forall (K : Kinematics) (s : Orbita.Sys K) (fuel n : nat)
         (speed limit_pos target_pos a b c : Q) (m' : Model K),
    sound (Orbita.bus s) ->
    let ds := Orbita.disks (Orbita.self s) in
    (n < fuel)%nat ->
    stalled (sensor (Orbita.bus s)) ds (nreads (Orbita.bus s)) n = true ->
    (forall j, (j < n)%nat ->
       stalled (sensor (Orbita.bus s)) ds (nreads (Orbita.bus s)) j
       = false) ->
    ~ speed == 0 ->
    0 <= target_pos / speed + 0.25 ->
    get_angles_from_quaternion K
      (reset_last_angles K (Orbita.model (Orbita.self s))) 1 0 0 0
    = (Ok [a; b; c], m') ->
    exists s' before,
      Orbita.homing K fuel speed limit_pos target_pos s
      = (Raise (ValueError "sleep length must be non-negative"), s')
      /\ Orbita.compliant (Orbita.self s') = false
      /\ log (Orbita.bus s')
         = log (Orbita.bus s)
           ++ before
           ++ EResetLastAngles
           :: EAnglesFromQuaternion 1 0 0 0
           :: writes attr.target_rot_position (combine ds [- a; - b; - c])
      /\ resets before = O
      /\ resets (log (Orbita.bus s')) = S (resets (log (Orbita.bus s))).
Proof.
  intros K [o [rg feed nr fl lg]] fuel n speed limit_pos target_pos a b c m'
         Hs ds Hfuel Hn Hbefore Hspeed Hwait Hsolve.
  subst ds. unfold sound in Hs.
  cbn [Orbita.bus Orbita.self sensor nreads fails log] in *.
  destruct (homing_run K feed fl Hs o fuel n speed limit_pos target_pos
              a b c m' rg nr lg Hfuel Hn Hbefore Hspeed Hwait Hsolve)
    as (rg' & Hrun & _).
  change {| Orbita.self := o;
            Orbita.bus := {| regs := rg; sensor := feed; nreads := nr;
                             fails := fl; log := lg |} |}
    with (at_poll o feed fl rg nr lg).
  rewrite Hrun. clear Hrun Hn Hbefore Hsolve.
  destruct o as [db dm dt m0 c0 v0].
  eexists. eexists. split; [reflexivity|].
  cbn [at_poll Orbita.self Orbita.bus Orbita.compliant Orbita._compliancy
       log].
  split; [reflexivity|].
  cbv [Orbita.disks Orbita.disk_top Orbita.disk_middle Orbita.disk_bottom].
  unfold homing_log.
  assert (forall (l1 l2 l3 l4 l5 : list Event) e1 e2 e3 e4 e5 e6 tl,
            l1 ++ e1 :: l2 ++ e2 :: l3 ++ e3 :: l4 ++ l1 ++ e4 :: l5
            ++ e5 :: l1 ++ e6 :: tl
            = (l1 ++ e1 :: l2 ++ e2 :: l3 ++ e3 :: l4 ++ l1 ++ e4 :: l5
               ++ e5 :: l1 ++ [e6]) ++ tl) as Hsplit.
  { intros. repeat (rewrite <- ?app_assoc; cbn [app]; f_equal). }
  rewrite Hsplit. split; [reflexivity|].
  assert (resets (zeroes [dt; dm; db] ++ ESleep 0.1
    :: map (fun d => EBus (BWrite d attr.compliant (VBool false)))
         [dt; dm; db] ++ ESleep 0.1
    :: flat_map (fun d =>
         [EBus (BWrite d attr.target_rot_speed (VNum speed));
          EBus (BWrite d attr.target_rot_position (VNum limit_pos))])
         [dt; dm; db] ++ ESleep 1
    :: stall_log [dt; dm; db] n ++ zeroes [dt; dm; db] ++ ESleep 1
    :: writes attr.target_rot_position
         (map (fun d => (d, target_pos)) [dt; dm; db])
    ++ ESleep (target_pos / speed + 0.25)
    :: zeroes [dt; dm; db] ++ [ESleep 0.1]) = O) as Hnone.
  { cbn [zeroes map flat_map app writes resets].
    rewrite resets_app, resets_stall_log. reflexivity. }
  split; [exact Hnone|].
  rewrite resets_app. rewrite resets_app. rewrite Hnone.
  cbn [resets writes combine map Nat.add]. lia.
Qed.

(** The theorem on the run of the specification (fifteen polls backwards,
    then at rest) with the default arguments of homing. *)
Lemma homing_raises_at_final_wait_witness :
  exists s',
    Orbita.homing (stub_solver [0; 0; 0]) 100 Orbita.default_speed
      Orbita.default_limit_pos Orbita.default_target_pos
      {| Orbita.self := neck [0; 0; 0];
         Orbita.bus := sound_bus hits_the_stop |}
    = (Raise (ValueError "sleep length must be non-negative"), s')
    /\ Orbita.compliant (Orbita.self s') = false
    /\ resets (log (Orbita.bus s')) = 1%nat.
Proof.
  destruct (homing_raises_at_final_wait (stub_solver [0; 0; 0])
              {| Orbita.self := neck [0; 0; 0];
                 Orbita.bus := sound_bus hits_the_stop |}
              100 24 Orbita.default_speed Orbita.default_limit_pos
              Orbita.default_target_pos 0 0 0 1%nat (fun op => eq_refl))
    as (s' & before & Hrun & Hcompliant & _ & _ & Hresets).
  - lia.
  - vm_compute. reflexivity.
  - intros j Hj.
    do 24 (destruct j as [|j]; [vm_compute; reflexivity|]). lia.
  - intros H. discriminate H.
  - intros H. discriminate H.
  - reflexivity.
  - exists s'. split; [exact Hrun|]. split; [exact Hcompliant|].
    exact Hresets.
Defined.

(* ------------------------------------------------------------------ *)
(** ** Target speeds written behind the back of the cache               *)
(* ------------------------------------------------------------------ *)

(** C10: orient and homing never assign the cached moving speed, whatever
    their outcome, and write target_rot_speed on the disk handles
    themselves: after orient with duration > 0 (distinct disks, sound bus)
    each disk holds the speed computed for that move, and after the run of
    homing each disk holds the homing speed; nothing restores them, so the
    cached moving_speed can differ from the target speed of every disk. *)
Theorem target_speeds_bypass_the_cache :
  forall (K : Kinematics) (s : Orbita.Sys K),
    (forall quat duration wait,
       Orbita.moving_speed
         (Orbita.self (snd (Orbita.orient K quat duration wait s)))
       = Orbita.moving_speed (Orbita.self s))
    /\ (forall fuel speed limit_pos target_pos,
          Orbita.moving_speed
            (Orbita.self
               (snd (Orbita.homing K fuel speed limit_pos target_pos s)))
          = Orbita.moving_speed (Orbita.self s))
    /\ (sound (Orbita.bus s) ->
        NoDup (Orbita.disks (Orbita.self s)) ->
        forall quat duration wait a b c m',
          get_angles_from_quaternion K (Orbita.model (Orbita.self s))
            (quat_w quat) (quat_x quat) (quat_y quat) (quat_z quat)
          = (Ok [a; b; c], m') ->
          0 < duration ->
          let w := Orbita.bus s in
          let n := nreads w in
          let o := Orbita.self s in
          let rg' :=
            regs (Orbita.bus (snd (Orbita.orient K quat duration wait s))) in
          rg' !! (Orbita.disk_top o, attr.target_rot_speed)
          = Some (VNum (Qabs (- a - sensor w n (Orbita.disk_top o)
                                        attr.rot_position) / duration))
          /\ rg' !! (Orbita.disk_middle o, attr.target_rot_speed)
             = Some (VNum (Qabs (- b - sensor w (S n) (Orbita.disk_middle o)
                                          attr.rot_position) / duration))
          /\ rg' !! (Orbita.disk_bottom o, attr.target_rot_speed)
             = Some (VNum (Qabs (- c - sensor w (S (S n))
                                          (Orbita.disk_bottom o)
                                          attr.rot_position) / duration)))
    /\ (sound (Orbita.bus s) ->
        forall fuel n speed limit_pos target_pos a b c m',
          (n < fuel)%nat ->
          stalled (sensor (Orbita.bus s)) (Orbita.disks (Orbita.self s))
                  (nreads (Orbita.bus s)) n = true ->
          (forall j, (j < n)%nat ->
             stalled (sensor (Orbita.bus s)) (Orbita.disks (Orbita.self s))
                     (nreads (Orbita.bus s)) j = false) ->
          ~ speed == 0 ->
          0 <= target_pos / speed + 0.25 ->
          get_angles_from_quaternion K
            (reset_last_angles K (Orbita.model (Orbita.self s))) 1 0 0 0
          = (Ok [a; b; c], m') ->
          forall d,
            d ∈ Orbita.disks (Orbita.self s) ->
            regs (Orbita.bus
                    (snd (Orbita.homing K fuel speed limit_pos target_pos s)))
              !! (d, attr.target_rot_speed)
            = Some (VNum speed)).
Proof.
  intros K s. split; [|split; [|split]].
  - intros quat duration wait.
    apply (keeps_orient Orbita.moving_speed quat duration wait
             moving_speed_ignores s).
  - intros fuel speed limit_pos target_pos.
    apply (keeps_homing Orbita.moving_speed fuel speed limit_pos target_pos
             moving_speed_ignores s).
  - intros Hs Hnd quat duration wait a b c m' Hsolve Hpos.
    exact (orient_target_speeds K s quat duration wait a b c m'
             Hs Hnd Hsolve Hpos).
  - destruct s as [o [rg feed nr fl lg]].
    intros Hs fuel n speed limit_pos target_pos a b c m'
           Hfuel Hn Hbefore Hspeed Hwait Hsolve d Hd.
    unfold sound in Hs.
    cbn [Orbita.bus Orbita.self sensor nreads fails log] in *.
    destruct (homing_run K feed fl Hs o fuel n speed limit_pos target_pos
                a b c m' rg nr lg Hfuel Hn Hbefore Hspeed Hwait Hsolve)
      as (rg' & Hrun & Hregs).
    change {| Orbita.self := o;
              Orbita.bus := {| regs := rg; sensor := feed; nreads := nr;
                               fails := fl; log := lg |} |}
      with (at_poll o feed fl rg nr lg).
    rewrite Hrun. cbn [snd at_poll Orbita.bus regs]. apply Hregs, Hd.
Qed.

(** The theorem on three disks at rest sent to angle 1 in 2 seconds: the
    cached moving speed is still 50 while the top disk is left with the
    target speed 1/2. *)
Lemma target_speeds_bypass_the_cache_witness :
  let s := {| Orbita.self := neck [- 1; - 1; - 1];
              Orbita.bus := sound_bus at_rest |} in
  let s' := snd (Orbita.orient (stub_solver [- 1; - 1; - 1])
                   {| quat_w := 1; quat_x := 0; quat_y := 0; quat_z := 0 |}
                   2 false s) in
  Orbita.moving_speed (Orbita.self s') = 50
  /\ regs (Orbita.bus s') !! (3%nat, attr.target_rot_speed)
     = Some (VNum (1 # 2)).
Proof.
  intros s s'. subst s'.
  destruct (target_speeds_bypass_the_cache (stub_solver [- 1; - 1; - 1]) s)
    as (Hcache & _ & Hspeeds & _).
  split.
  - rewrite Hcache. reflexivity.
  - assert (NoDup [3; 2; 1]%nat) as Hnd
      by (apply (bool_decide_unpack (NoDup [3; 2; 1]%nat)); vm_compute;
          exact I).
    destruct (Hspeeds (fun op => eq_refl) Hnd
                {| quat_w := 1; quat_x := 0; quat_y := 0; quat_z := 0 |}
                2 false (- 1) (- 1) (- 1) O eq_refl eq_refl)
      as (Htop & _ & _).
    exact Htop.
Defined.

(* ------------------------------------------------------------------ *)
(** ** DynamixelMotor: accessors                                        *)
(* ------------------------------------------------------------------ *)

Section Accessors.

Import Dynamixel.

Lemma read_regs d a w : regs (snd (read d a w)) = regs w.
Proof.
  unfold read. destruct (fails w _); [reflexivity|].
  destruct (is_sensor a); reflexivity.
Qed.

Lemma preserves_bind {S A B X} (f : S -> X) (m : M S A) (k : A -> M S B) :
  preserves f m -> (forall a, preserves f (k a)) -> preserves f (bind m k).
Proof.
  intros Hm Hk s. unfold bind. specialize (Hm s).
  destruct (m s) as [[a| |] s1]; cbn [snd] in *; [|assumption..].
  rewrite Hk. exact Hm.
Qed.

Lemma preserves_ret {S A X} (f : S -> X) (a : A) : preserves f (ret a).
Proof. intros s. reflexivity. Qed.

Lemma preserves_raise {S A X} (f : S -> X) e : preserves f (@raise S A e).
Proof. intros s. reflexivity. Qed.

Lemma preserves_as_num {S X} (f : S -> X) v : preserves f (as_num v).
Proof. intros s. destruct v; reflexivity. Qed.

Lemma preserves_truediv {S X} (f : S -> X) a b : preserves f (truediv a b).
Proof. intros s. unfold truediv. destruct (Qeq_bool b 0); reflexivity. Qed.

Lemma preserves_for_each {S A X} (f : S -> X) (l : list A) body :
  (forall x, preserves f (body x)) -> preserves f (for_each l body).
Proof.
  intros Hb. induction l as [|x l IH]; cbn [for_each].
  - apply preserves_ret.
  - apply preserves_bind; [apply Hb | intros _; exact IH].
Qed.

Lemma preserves_comprehension {S A B X} (f : S -> X) (l : list A)
    (g : A -> M S B) :
  (forall x, preserves f (g x)) -> preserves f (comprehension l g).
Proof.
  intros Hg. induction l as [|x l IH]; cbn [comprehension].
  - apply preserves_ret.
  - apply preserves_bind; [apply Hg | intros y].
    apply preserves_bind; [exact IH | intros ys; apply preserves_ret].
Qed.

Lemma preserves_read d a : preserves regs (read d a).
Proof. intros w. apply read_regs. Qed.

End Accessors.

(** X1: on a sound bus, writing a goal position and reading it back gives
    the value written (in exact arithmetic): the setter stores the raw
    target [(value + offset) * (direct ? 1 : -1)] in target_rot_position
    and the getter undoes the transform. *)
Theorem goal_position_round_trip :
  forall (self : Dynamixel.DynamixelMotor) (value : Q) (w : World),
    sound w ->
    exists w1 got w2,
      Dynamixel.set_goal_position self value w = (Ok tt, w1)
      /\ regs w1 !! (Dynamixel._motor self, attr.target_rot_position)
         = Some (VNum (Dynamixel._to_motor_pos self value))
      /\ Dynamixel.goal_position self w1 = (Ok got, w2)
      /\ got == value.
Proof.
  intros self value [rg sn nr fl lg] Hs. unfold sound in Hs. cbn in Hs.
  unfold Dynamixel.set_goal_position, Dynamixel.goal_position, write.
  cbn [fails]. rewrite Hs. eexists. eexists. eexists.
  split; [reflexivity|]. cbn [regs]. split; [apply lookup_insert_eq|].
  unfold bind, read. cbn [fails regs is_sensor]. rewrite Hs.
  rewrite lookup_insert_eq. cbn [default as_num ret record].
  split; [reflexivity|]. apply as_local_to_motor.
Qed.

(** The theorem on the reversed elbow motor with offset 10: the goal -50
    is stored as raw 40 and read back as -50. *)
Lemma goal_position_round_trip_witness :
  exists w1 got w2,
    Dynamixel.set_goal_position elbow (- 50) (sound_bus at_rest)
    = (Ok tt, w1)
    /\ regs w1 !! (7%nat, attr.target_rot_position) = Some (VNum 40)
    /\ Dynamixel.goal_position elbow w1 = (Ok got, w2)
    /\ got == - 50.
Proof.
  destruct (goal_position_round_trip elbow (- 50) (sound_bus at_rest)
              (fun op => eq_refl))
    as (w1 & got & w2 & Hset & Hraw & Hget & Hgot).
  exists w1, got, w2. split; [exact Hset|]. split; [exact Hraw|].
  split; [exact Hget | exact Hgot].
Defined.

(** X2: on a sound bus the pass-through accessors read back exactly what
    was written, with no transform: moving_speed, compliant and
    torque_limit. *)
Theorem pass_through_accessors_round_trip :
  forall (self : Dynamixel.DynamixelMotor) (w : World),
    sound w ->
    (forall speed,
       fst ((Dynamixel.set_moving_speed self speed ;;
             Dynamixel.moving_speed self) w) = Ok (VNum speed))
    /\ (forall flag,
          fst ((Dynamixel.set_compliant self flag ;;
                Dynamixel.compliant self) w) = Ok (VBool flag))
    /\ (forall limit,
          fst ((Dynamixel.set_torque_limit self limit ;;
                Dynamixel.torque_limit self) w) = Ok (VNum limit)).
Proof.
  intros self [rg sn nr fl lg] Hs. unfold sound in Hs. cbn in Hs.
  repeat split; intros x;
    unfold Dynamixel.set_moving_speed, Dynamixel.moving_speed,
      Dynamixel.set_compliant, Dynamixel.compliant,
      Dynamixel.set_torque_limit, Dynamixel.torque_limit;
    run_bus Hs; rewrite lookup_insert_eq; reflexivity.
Qed.

(** The theorem on the elbow motor. *)
Lemma pass_through_accessors_round_trip_witness :
  fst ((Dynamixel.set_moving_speed elbow 30 ;;
        Dynamixel.moving_speed elbow) (sound_bus at_rest)) = Ok (VNum 30)
  /\ fst ((Dynamixel.set_compliant elbow true ;;
           Dynamixel.compliant elbow) (sound_bus at_rest))
     = Ok (VBool true).
Proof.
  destruct (pass_through_accessors_round_trip elbow (sound_bus at_rest)
              (fun op => eq_refl)) as (Hspeed & Hflag & _).
  split; [apply Hspeed | apply Hflag].
Defined.

(** X3: the getters of DynamixelMotor are read-only: whatever the bus
    does and whatever the outcome, present_position, goal_position,
    moving_speed, compliant, torque_limit and temperature leave every
    register as it was. *)
Theorem getters_are_read_only :
  forall (self : Dynamixel.DynamixelMotor) (w : World),
    regs (snd (Dynamixel.present_position self w)) = regs w
    /\ regs (snd (Dynamixel.goal_position self w)) = regs w
    /\ regs (snd (Dynamixel.moving_speed self w)) = regs w
    /\ regs (snd (Dynamixel.compliant self w)) = regs w
    /\ regs (snd (Dynamixel.torque_limit self w)) = regs w
    /\ regs (snd (Dynamixel.temperature self w)) = regs w.
Proof.
  intros self w.
  assert (forall d a,
            preserves regs (v <- read d a ;; pos <- as_num v ;;
                            ret (Dynamixel._as_local_pos self pos)))
    as Hpos.
  { intros d a. apply preserves_bind; [apply preserves_read | intros v].
    apply preserves_bind; [apply preserves_as_num | intros pos].
    apply preserves_ret. }
  repeat split; first [apply Hpos | apply read_regs].
Qed.

(* ------------------------------------------------------------------ *)
(** ** DynamixelMotor.goto with a known interpolation mode              *)
(* ------------------------------------------------------------------ *)

Lemma getitem_contains (mode : string) (cls : Interpolation) :
  Dynamixel.getitem Dynamixel.interpolations mode = Some cls ->
  Dynamixel.contains (Dynamixel.keys Dynamixel.interpolations) mode = true.
Proof.
  unfold Dynamixel.contains, Dynamixel.keys, Dynamixel.interpolations.
  cbn [Dynamixel.getitem map fst existsb].
  destruct (String.eqb mode "linear"); [reflexivity|].
  destruct (String.eqb mode "minjerk"); [reflexivity | discriminate].
Qed.

(** X4: on a sound bus, goto with a mode of the dict and the default
    starting point reads rot_position once, builds the player of that mode
    from (local present position, goal, duration), starts it on the motor,
    waits on it exactly when wait is true, and returns it in both cases;
    goto itself writes no register.  "linear" gives Linear and "minjerk"
    gives MinimumJerk. *)
Theorem goto_starts_the_chosen_player :
  forall (self : Dynamixel.DynamixelMotor) (goal duration : Q) (wait : bool)
         (mode : string) (cls : Interpolation) (w : World),
    sound w ->
    Dynamixel.getitem Dynamixel.interpolations mode = Some cls ->
    let motor := Dynamixel._motor self in
    let start :=
      VNum (Dynamixel._as_local_pos self
              (sensor w (nreads w) motor attr.rot_position)) in
    let player := {| tp_class := cls; tp_initial := start;
                     tp_goal := goal; tp_duration := duration |} in
    exists w',
      Dynamixel.goto self goal duration Dynamixel.default_starting_point
        wait mode w = (Ok player, w')
      /\ log w'
         = log w ++ [EBus (BRead motor attr.rot_position);
                     ETrajStart player motor]
                 ++ (if wait then [ETrajWait player] else [])
      /\ regs w' = regs w
      /\ Dynamixel.getitem Dynamixel.interpolations "linear" = Some Linear
      /\ Dynamixel.getitem Dynamixel.interpolations "minjerk"
         = Some MinimumJerk.
Proof.
  intros self goal duration wait mode cls [rg sn nr fl lg] Hs Hcls
         motor start player.
  subst motor start player. unfold sound in Hs. cbn in Hs.
  unfold Dynamixel.goto. rewrite (getitem_contains mode cls Hcls), Hcls.
  cbn [negb]. unfold Dynamixel.default_starting_point.
  cbn [Dynamixel.getattr].
  unfold Dynamixel.present_position, Dynamixel.traj_start,
    Dynamixel.traj_wait.
  run_bus Hs.
  destruct wait; run_py; eexists; (split; [reflexivity|]);
    cbn [log regs]; rewrite <- ?app_assoc;
    repeat split; reflexivity.
Qed.

(** The theorem on the elbow motor at rest, sent to 30 in 2 seconds with
    the minimum-jerk player and wait = True. *)
Lemma goto_starts_the_chosen_player_witness :
  exists p w',
    Dynamixel.goto elbow 30 2 Dynamixel.default_starting_point true
      "minjerk" (sound_bus at_rest) = (Ok p, w')
    /\ tp_class p = MinimumJerk
    /\ log w' = [EBus (BRead 7%nat attr.rot_position);
                 ETrajStart p 7%nat; ETrajWait p].
Proof.
  destruct (goto_starts_the_chosen_player elbow 30 2 true "minjerk"
              MinimumJerk (sound_bus at_rest) (fun op => eq_refl) eq_refl)
    as (w' & Hrun & Hlog & _).
  eexists. exists w'. split; [exact Hrun|]. split; [reflexivity|].
  exact Hlog.
Defined.

(** X5: when the read of rot_position fails, goto with a mode of the dict
    and the default starting point raises that bus error and starts no
    player: the world is left as it was. *)
Theorem goto_read_failure_starts_nothing :
  forall (self : Dynamixel.DynamixelMotor) (goal duration : Q) (wait : bool)
         (mode : string) (cls : Interpolation) (w : World),
    Dynamixel.getitem Dynamixel.interpolations mode = Some cls ->
    fails w (BRead (Dynamixel._motor self) attr.rot_position) = true ->
    Dynamixel.goto self goal duration Dynamixel.default_starting_point
      wait mode w
    = (Raise (HardwareIOError
                (BRead (Dynamixel._motor self) attr.rot_position)), w).
Proof.
  intros self goal duration wait mode cls w Hcls Hfail.
  unfold Dynamixel.goto. rewrite (getitem_contains mode cls Hcls), Hcls.
  cbn [negb]. unfold Dynamixel.default_starting_point.
  cbn [Dynamixel.getattr]. unfold Dynamixel.present_position.
  cbv [bind read]. rewrite Hfail. reflexivity.
Qed.

(** The theorem on a bus whose module 7 cannot be read. *)
Lemma goto_read_failure_starts_nothing_witness :
  Dynamixel.goto elbow 30 2 Dynamixel.default_starting_point false "linear"
    (bus_with_blind_module 7%nat)
  = (Raise (HardwareIOError (BRead 7%nat attr.rot_position)),
     bus_with_blind_module 7%nat).
Proof.
  exact (goto_read_failure_starts_nothing elbow 30 2 false "linear" Linear
           (bus_with_blind_module 7%nat) eq_refl eq_refl).
Defined.

(* ------------------------------------------------------------------ *)
(** ** OrbitaActuator: construction and setup                           *)
(* ------------------------------------------------------------------ *)

(** X6: given a number of handles other than three, the constructor
    raises a ValueError (the unpacking fails) before it touches the bus:
    the world is left as it was. *)
Theorem constructor_needs_three_handles :
  forall (K : Kinematics) (luos_disks_motor : list Handle)
         (geometry : Geometry K) (pid : list Q)
         (reduction wheel_size encoder_res : Q) (w : World),
    length luos_disks_motor <> 3%nat ->
    exists msg,
      Orbita.__init__ K luos_disks_motor geometry pid reduction wheel_size
        encoder_res w = (Raise (ValueError msg), w).
Proof.
  intros K hs geometry pid reduction wheel_size encoder_res w Hlen.
  destruct hs as [|b [|m [|t [|x hs]]]]; cbn [Orbita.__init__];
    try (eexists; reflexivity).
  cbn in Hlen. congruence.
Qed.

(** The theorem at two handles. *)
Lemma constructor_needs_three_handles_witness :
  exists msg,
    Orbita.__init__ (stub_solver [1; 2; 3]) [1; 2]%nat tt [1; 0; 0] 1 1 1
      (sound_bus at_rest) = (Raise (ValueError msg), sound_bus at_rest).
Proof.
  apply (constructor_needs_three_handles (stub_solver [1; 2; 3]) [1; 2]%nat
           tt [1; 0; 0] 1 1 1 (sound_bus at_rest)).
  discriminate.
Defined.

Section Setup.

Context (K : Kinematics).

(** A run of [setup] on a sound bus. *)
Lemma setup_run (s : Orbita.Sys K) (pid : list Q)
    (reduction wheel_size encoder_res moving_speed : Q) :
  sound (Orbita.bus s) ->
  exists s',
    Orbita.setup K pid reduction wheel_size encoder_res moving_speed s
    = (Ok tt, s')
    /\ Orbita.self s' = Orbita.self s
    /\ log (Orbita.bus s')
       = log (Orbita.bus s)
         ++ flat_map (setup_log pid reduction wheel_size encoder_res
                                moving_speed)
                     (Orbita.disks (Orbita.self s))
    /\ (forall d, d ∈ Orbita.disks (Orbita.self s) ->
          regs (Orbita.bus s') !! (d, attr.limit_current)
          = Some (VNum 0.4)
          /\ regs (Orbita.bus s') !! (d, attr.rot_position_mode)
             = Some (VBool true)
          /\ regs (Orbita.bus s') !! (d, attr.rot_speed_mode)
             = Some (VBool true)
          /\ regs (Orbita.bus s') !! (d, attr.target_rot_speed)
             = Some (VNum moving_speed))
    /\ (forall d, regs (Orbita.bus s') !! (d, attr.compliant)
                  = regs (Orbita.bus s) !! (d, attr.compliant)).
Proof.
  destruct s as [[db dm dt m0 c0 v0] [rg sn nr fl lg]].
  intros Hs. unfold sound in Hs. cbn in Hs.
  unfold Orbita.setup. run_bus Hs.
  eexists. split; [reflexivity|]. split; [reflexivity|].
  split; [|split].
  - cbn [flat_map setup_log app]. rewrite <- !app_assoc. reflexivity.
  - intros d Hd.
    repeat (apply elem_of_cons in Hd as [-> | Hd]); [| | |inversion Hd];
      repeat split;
      repeat (rewrite lookup_insert; case_decide;
              [simplify_eq; reflexivity|]);
      congruence.
  - intros d. repeat (rewrite lookup_insert_ne by congruence). reflexivity.
Qed.

End Setup.

(** X7: on a sound bus setup configures the disks one after the other in
    the order of disks(); for each disk it writes the current limit 0.4,
    the encoder resolution, the reduction, the wheel size and the PID,
    enables the two modes and the two reports, zeroes the disk, sleeps 0.1
    and only then writes the target speed.  Afterwards every disk holds
    the limit 0.4, both modes enabled and the target speed given. *)
Theorem setup_configures_each_disk_in_order :
  forall (K : Kinematics) (s : Orbita.Sys K) (pid : list Q)
         (reduction wheel_size encoder_res moving_speed : Q),
    sound (Orbita.bus s) ->
    exists s',
      Orbita.setup K pid reduction wheel_size encoder_res moving_speed s
      = (Ok tt, s')
      /\ log (Orbita.bus s')
         = log (Orbita.bus s)
           ++ flat_map (setup_log pid reduction wheel_size encoder_res
                                  moving_speed)
                       (Orbita.disks (Orbita.self s))
      /\ (forall d, d ∈ Orbita.disks (Orbita.self s) ->
            regs (Orbita.bus s') !! (d, attr.limit_current)
            = Some (VNum 0.4)
            /\ regs (Orbita.bus s') !! (d, attr.rot_position_mode)
               = Some (VBool true)
            /\ regs (Orbita.bus s') !! (d, attr.rot_speed_mode)
               = Some (VBool true)
            /\ regs (Orbita.bus s') !! (d, attr.target_rot_speed)
               = Some (VNum moving_speed)).
Proof.
  intros K s pid reduction wheel_size encoder_res moving_speed Hs.
  destruct (setup_run K s pid reduction wheel_size encoder_res moving_speed
              Hs) as (s' & Hrun & _ & Hlog & Hregs & _).
  exists s'. split; [exact Hrun|]. split; [exact Hlog | exact Hregs].
Qed.

(** The theorem on the neck: 33 bus operations and 3 sleeps. *)
Lemma setup_configures_each_disk_in_order_witness :
  exists s',
    Orbita.setup (stub_solver [1; 2; 3]) [1; 0; 0] 1 1 1 50
      {| Orbita.self := neck [1; 2; 3]; Orbita.bus := sound_bus at_rest |}
    = (Ok tt, s')
    /\ length (log (Orbita.bus s')) = 36%nat
    /\ sleeps (log (Orbita.bus s')) = 3%nat
    /\ regs (Orbita.bus s') !! (2%nat, attr.target_rot_speed)
       = Some (VNum 50).
Proof.
  destruct (setup_configures_each_disk_in_order (stub_solver [1; 2; 3])
              {| Orbita.self := neck [1; 2; 3];
                 Orbita.bus := sound_bus at_rest |}
              [1; 0; 0] 1 1 1 50 (fun op => eq_refl))
    as (s' & Hrun & Hlog & Hregs).
  exists s'. split; [exact Hrun|]. rewrite Hlog.
  split; [reflexivity|]. split; [reflexivity|].
  assert (2%nat ∈ [3; 2; 1]%nat) as Hin
    by (apply list_elem_of_In; cbn; tauto).
  destruct (Hregs 2%nat Hin) as (_ & _ & _ & Hspeed). exact Hspeed.
Defined.

(** X8: an actuator constructed on a sound bus caches moving_speed = 50
    and compliant = False; every disk has been given the target speed 50,
    so cache and disks agree on the speed, but the constructor writes the
    compliant attribute of no module: the cached False is not sent to the
    disks. *)
Theorem constructor_sends_speed_not_compliance :
  forall (K : Kinematics) (first second third : Handle)
         (geometry : Geometry K) (pid : list Q)
         (reduction wheel_size encoder_res : Q) (w : World),
    sound w ->
    exists o w',
      Orbita.__init__ K [first; second; third] geometry pid reduction
        wheel_size encoder_res w = (Ok o, w')
      /\ Orbita.disks o = [third; second; first]
      /\ Orbita.moving_speed o = 50
      /\ Orbita.compliant o = false
      /\ (forall d, d ∈ Orbita.disks o ->
            regs w' !! (d, attr.target_rot_speed)
            = Some (VNum (Orbita.moving_speed o)))
      /\ (forall d, regs w' !! (d, attr.compliant)
                    = regs w !! (d, attr.compliant)).
Proof.
  intros K b m t geometry pid reduction wheel_size encoder_res w Hs.
  cbn [Orbita.__init__].
  match goal with
  | |- context [Orbita.setup K ?p ?r ?ws ?er ?ms ?s0] =>
      destruct (setup_run K s0 p r ws er ms Hs)
        as (s' & Hrun & Hself & _ & Hregs & Hcompliant);
      rewrite Hrun
  end.
  cbn [Orbita.self Orbita.bus] in *.
  eexists. eexists. split; [reflexivity|]. rewrite Hself.
  split; [reflexivity|]. split; [reflexivity|]. split; [reflexivity|].
  split.
  - intros d Hd. apply (Hregs d Hd).
  - exact Hcompliant.
Qed.

(** The theorem at the handles 1, 2, 3. *)
Lemma constructor_sends_speed_not_compliance_witness :
  exists o w',
    Orbita.__init__ (stub_solver [1; 2; 3]) [1; 2; 3]%nat tt [1; 0; 0]
      1 1 1 (sound_bus at_rest) = (Ok o, w')
    /\ regs w' !! (3%nat, attr.target_rot_speed) = Some (VNum 50)
    /\ regs w' !! (3%nat, attr.compliant) = None.
Proof.
  destruct (constructor_sends_speed_not_compliance (stub_solver [1; 2; 3])
              1%nat 2%nat 3%nat tt [1; 0; 0] 1 1 1 (sound_bus at_rest)
              (fun op => eq_refl))
    as (o & w' & Hinit & Hdisks & Hspeed & Hflag & Hregs & Hcompliant).
  exists o, w'. split; [exact Hinit|]. split.
  - rewrite <- Hspeed. apply Hregs. rewrite Hdisks.
    apply list_elem_of_In. cbn. tauto.
  - exact (Hcompliant 3%nat).
Defined.

(* ------------------------------------------------------------------ *)
(** ** OrbitaActuator: setters and commands                             *)
(* ------------------------------------------------------------------ *)

(** X9: on a sound bus each of the two setters caches the new value and
    writes it to the three disks in the order top, middle, bottom, after
    which every disk holds the cached value. *)
Theorem setters_reach_every_disk :
  forall (K : Kinematics) (s : Orbita.Sys K),
    sound (Orbita.bus s) ->
    (forall compliancy : bool,
       exists s',
         Orbita.set_compliant K compliancy s = (Ok tt, s')
         /\ Orbita.compliant (Orbita.self s') = compliancy
         /\ log (Orbita.bus s')
            = log (Orbita.bus s)
              ++ map (fun d => EBus (BWrite d attr.compliant
                                       (VBool compliancy)))
                     (Orbita.disks (Orbita.self s))
         /\ forall d, d ∈ Orbita.disks (Orbita.self s) ->
              regs (Orbita.bus s') !! (d, attr.compliant)
              = Some (VBool compliancy))
    /\ (forall speed : Q,
          exists s',
            Orbita.set_moving_speed K speed s = (Ok tt, s')
            /\ Orbita.moving_speed (Orbita.self s') = speed
            /\ log (Orbita.bus s')
               = log (Orbita.bus s)
                 ++ map (fun d => EBus (BWrite d attr.target_rot_speed
                                          (VNum speed)))
                        (Orbita.disks (Orbita.self s))
            /\ forall d, d ∈ Orbita.disks (Orbita.self s) ->
                 regs (Orbita.bus s') !! (d, attr.target_rot_speed)
                 = Some (VNum speed)).
Proof.
  intros K [[db dm dt m0 c0 v0] [rg sn nr fl lg]] Hs.
  unfold sound in Hs. cbn in Hs.
  split; intros x;
    unfold Orbita.set_compliant, Orbita.set_moving_speed; run_bus Hs;
    (eexists; split; [reflexivity|]; split; [reflexivity|]; split;
     [cbn [map]; rewrite <- !app_assoc; reflexivity|]);
    intros d Hd;
    repeat (apply elem_of_cons in Hd as [-> | Hd]); [| | |inversion Hd| | | |inversion Hd];
    repeat (rewrite lookup_insert; case_decide;
            [simplify_eq; reflexivity|]);
    congruence.
Qed.

(** The theorem on the neck: compliant = True reaches the three disks,
    top first. *)
Lemma setters_reach_every_disk_witness :
  exists s',
    Orbita.set_compliant (stub_solver [1; 2; 3]) true
      {| Orbita.self := neck [1; 2; 3]; Orbita.bus := sound_bus at_rest |}
    = (Ok tt, s')
    /\ Orbita.compliant (Orbita.self s') = true
    /\ log (Orbita.bus s')
       = [EBus (BWrite 3%nat attr.compliant (VBool true));
          EBus (BWrite 2%nat attr.compliant (VBool true));
          EBus (BWrite 1%nat attr.compliant (VBool true))].
Proof.
  destruct (proj1 (setters_reach_every_disk (stub_solver [1; 2; 3])
                     {| Orbita.self := neck [1; 2; 3];
                        Orbita.bus := sound_bus at_rest |}
                     (fun op => eq_refl)) true)
    as (s' & Hrun & Hcache & Hlog & _).
  exists s'. split; [exact Hrun|]. split; [exact Hcache | exact Hlog].
Defined.

(** X10: on a sound bus, orient with a duration that is not positive (the
    default -1 is one) and wait = False reads no sensor and sets no speed:
    it only writes the three negated angles as position targets, and the
    target speed of every module is what it was. *)
Theorem orient_without_duration_keeps_speeds :
  forall (K : Kinematics) (s : Orbita.Sys K) (quat : Quaternion)
         (duration a b c : Q) (m' : Model K),
    sound (Orbita.bus s) ->
    get_angles_from_quaternion K (Orbita.model (Orbita.self s))
      (quat_w quat) (quat_x quat) (quat_y quat) (quat_z quat)
    = (Ok [a; b; c], m') ->
    duration <= 0 ->
    exists s',
      Orbita.orient K quat duration false s = (Ok tt, s')
      /\ log (Orbita.bus s')
         = log (Orbita.bus s)
           ++ EAnglesFromQuaternion (quat_w quat) (quat_x quat)
                (quat_y quat) (quat_z quat)
              :: writes attr.target_rot_position
                   (combine (Orbita.disks (Orbita.self s))
                            [- a; - b; - c])
      /\ nreads (Orbita.bus s') = nreads (Orbita.bus s)
      /\ forall d, regs (Orbita.bus s') !! (d, attr.target_rot_speed)
                   = regs (Orbita.bus s) !! (d, attr.target_rot_speed).
Proof.
  intros K [[db dm dt m0 c0 v0] [rg sn nr fl lg]] quat duration a b c m'
         Hs Hsolve Hle.
  unfold sound in Hs. cbn in Hs, Hsolve.
  unfold Orbita.orient. run_py. rewrite Hsolve.
  rewrite (Qpositive_false _ Hle). run_bus Hs.
  eexists. split; [reflexivity|]. split.
  - cbn [writes map app]. rewrite <- !app_assoc. reflexivity.
  - split; [reflexivity|]. intros d.
    repeat (rewrite lookup_insert_ne by congruence). reflexivity.
Qed.

(** The theorem at the defaults of orient. *)
Lemma orient_without_duration_keeps_speeds_witness :
  exists s',
    Orbita.orient (stub_solver [1; 2; 3])
      {| quat_w := 1; quat_x := 0; quat_y := 0; quat_z := 0 |}
      Orbita.default_duration Orbita.default_wait
      {| Orbita.self := neck [1; 2; 3]; Orbita.bus := sound_bus at_rest |}
    = (Ok tt, s')
    /\ nreads (Orbita.bus s') = 0%nat
    /\ regs (Orbita.bus s') !! (3%nat, attr.target_rot_speed) = None.
Proof.
  destruct (orient_without_duration_keeps_speeds (stub_solver [1; 2; 3])
              {| Orbita.self := neck [1; 2; 3];
                 Orbita.bus := sound_bus at_rest |}
              {| quat_w := 1; quat_x := 0; quat_y := 0; quat_z := 0 |}
              Orbita.default_duration 1 2 3 O (fun op => eq_refl) eq_refl)
    as (s' & Hrun & _ & Hreads & Hregs).
  - intros H. discriminate H.
  - exists s'. split; [exact Hrun|]. split; [exact Hreads|].
    exact (Hregs 3%nat).
Defined.

(** X11: when the kinematics solver raises, point_at and orient pass the
    exception on and write nothing: the registers are what they were and
    the log only gains the solver call, whatever the bus would have
    done. *)
Theorem solver_failure_writes_nothing :
  forall (K : Kinematics) (s : Orbita.Sys K) (e : PyError) (m' : Model K),
    (forall vector angle,
       get_angles_from_vector K (Orbita.model (Orbita.self s)) vector angle
       = (Raise e, m') ->
       exists s',
         Orbita.point_at K vector angle s = (Raise e, s')
         /\ regs (Orbita.bus s') = regs (Orbita.bus s)
         /\ log (Orbita.bus s')
            = log (Orbita.bus s) ++ [EAnglesFromVector vector angle])
    /\ (forall quat duration wait,
          get_angles_from_quaternion K (Orbita.model (Orbita.self s))
            (quat_w quat) (quat_x quat) (quat_y quat) (quat_z quat)
          = (Raise e, m') ->
          exists s',
            Orbita.orient K quat duration wait s = (Raise e, s')
            /\ regs (Orbita.bus s') = regs (Orbita.bus s)
            /\ log (Orbita.bus s')
               = log (Orbita.bus s)
                 ++ [EAnglesFromQuaternion (quat_w quat) (quat_x quat)
                       (quat_y quat) (quat_z quat)]).
Proof.
  intros K [[db dm dt m0 c0 v0] [rg sn nr fl lg]] e m'. split.
  - intros vector angle Hsolve. cbn in Hsolve.
    unfold Orbita.point_at. run_py. rewrite Hsolve.
    eexists. split; [reflexivity|]. split; reflexivity.
  - intros quat duration wait Hsolve. cbn in Hsolve.
    unfold Orbita.orient. run_py. rewrite Hsolve.
    eexists. split; [reflexivity|]. split; reflexivity.
Qed.

(** The theorem on a solver that raises ValueError for every request. *)
Lemma solver_failure_writes_nothing_witness :
  exists s',
    Orbita.point_at (failing_solver (ValueError "unreachable")) [0; 0; 1] 0
      {| Orbita.self := stuck_neck (ValueError "unreachable");
         Orbita.bus := sound_bus at_rest |}
    = (Raise (ValueError "unreachable"), s')
    /\ regs (Orbita.bus s') = ∅.
Proof.
  destruct (proj1 (solver_failure_writes_nothing
                     (failing_solver (ValueError "unreachable"))
                     {| Orbita.self := stuck_neck (ValueError "unreachable");
                        Orbita.bus := sound_bus at_rest |}
                     (ValueError "unreachable") O)
              [0; 0; 1] 0 eq_refl)
    as (s' & Hrun & Hregs & _).
  exists s'. split; [exact Hrun | exact Hregs].
Defined.

(** X12: point_at pairs the disks with the angles as zip does: on a sound
    bus, whatever the number of angles the solver returns, the writes are
    those of the negated angles on the leading disks of [top, middle,
    bottom]; a disk without an angle is not written and an angle beyond
    the third is ignored. *)
Theorem point_at_zips_disks_with_angles :
  forall (K : Kinematics) (s : Orbita.Sys K) (vector : list Q) (angle : Q)
         (thetas : list Q) (m' : Model K),
    sound (Orbita.bus s) ->
    get_angles_from_vector K (Orbita.model (Orbita.self s)) vector angle
    = (Ok thetas, m') ->
    let targets :=
      combine (Orbita.disks (Orbita.self s)) (map Qopp thetas) in
    exists s',
      Orbita.point_at K vector angle s = (Ok tt, s')
      /\ log (Orbita.bus s')
         = log (Orbita.bus s)
           ++ EAnglesFromVector vector angle
              :: writes attr.target_rot_position targets
      /\ regs (Orbita.bus s')
         = written attr.target_rot_position targets (regs (Orbita.bus s))
      /\ length targets = Nat.min 3 (length thetas).
Proof.
  intros K [[db dm dt m0 c0 v0] [rg sn nr fl lg]] vector angle thetas m'
         Hs Hsolve targets.
  subst targets. unfold sound in Hs. cbn in Hs, Hsolve.
  unfold Orbita.point_at. run_py. rewrite Hsolve.
  destruct thetas as [|a [|b [|c [|x thetas]]]]; run_bus Hs;
    (eexists; split; [reflexivity|]);
    cbn [writes written foldl map combine app length Nat.min];
    rewrite <- ?app_assoc; repeat split; reflexivity.
Qed.

(** The theorem on a solver that returns two angles: the top and middle
    disks are written, the bottom disk is not. *)
Lemma point_at_zips_disks_with_angles_witness :
  exists s',
    Orbita.point_at (stub_solver [1; 2]) [0; 0; 1] 0
      {| Orbita.self := neck [1; 2]; Orbita.bus := sound_bus at_rest |}
    = (Ok tt, s')
    /\ log (Orbita.bus s')
       = [EAnglesFromVector [0; 0; 1] 0;
          EBus (BWrite 3%nat attr.target_rot_position (VNum (- 1)));
          EBus (BWrite 2%nat attr.target_rot_position (VNum (- 2)))].
Proof.
  destruct (point_at_zips_disks_with_angles (stub_solver [1; 2])
              {| Orbita.self := neck [1; 2];
                 Orbita.bus := sound_bus at_rest |}
              [0; 0; 1] 0 [1; 2] O (fun op => eq_refl) eq_refl)
    as (s' & Hrun & Hlog & _).
  exists s'. split; [exact Hrun | exact Hlog].
Defined.

(* ------------------------------------------------------------------ *)
(** ** OrbitaActuator: what no method changes                           *)
(* ------------------------------------------------------------------ *)

Section Untouched.

Context {K : Kinematics}.

Lemma disks_ignore_model_and_compliancy :
  ignores_model_and_compliancy (@Orbita.disks K).
Proof. intros o m c. reflexivity. Qed.

Lemma keeps_point_at {X} (f : Orbita.OrbitaActuator K -> X) vector angle :
  ignores_model_and_compliancy f ->
  keeps f (Orbita.point_at K vector angle).
Proof.
  intros Hf. unfold Orbita.point_at.
  apply keeps_bind; [apply keeps_call_model; exact Hf | intros thetas].
  apply keeps_bind; [apply keeps_self_disks | intros ds].
  apply keeps_for_each. intros [d q]. apply keeps_on_bus.
Qed.

Lemma keeps_disks_set_moving_speed speed :
  keeps Orbita.disks (Orbita.set_moving_speed K speed).
Proof.
  unfold Orbita.set_moving_speed.
  apply keeps_bind; [intros s; reflexivity | intros _].
  apply keeps_bind; [apply keeps_self_disks | intros ds].
  apply keeps_for_each. intros d. apply keeps_on_bus.
Qed.

(** Compliance through the elementary steps. *)
Lemma compliance_write d d' a v :
  a <> attr.compliant ->
  preserves (compliance d) (Orbita.on_bus K (write d' a v)).
Proof.
  intros Ha s. unfold Orbita.on_bus, write, compliance.
  destruct (fails _ _); cbn; [reflexivity|].
  rewrite lookup_insert_ne by congruence. reflexivity.
Qed.

Lemma compliance_read d d' a :
  preserves (compliance d) (Orbita.on_bus K (read d' a)).
Proof.
  intros s. unfold Orbita.on_bus, read, compliance.
  destruct (fails _ _); [reflexivity|].
  destruct (is_sensor a); reflexivity.
Qed.

Lemma compliance_sleep d secs :
  preserves (compliance d) (Orbita.on_bus K (sleep secs)).
Proof.
  intros s. unfold Orbita.on_bus, sleep, compliance.
  destruct (Qle_bool 0 secs); reflexivity.
Qed.

Lemma compliance_call_model d e g :
  preserves (compliance d) (Orbita.call_model K e g).
Proof.
  intros s. unfold Orbita.call_model, compliance.
  destruct (g _) as [r m']. reflexivity.
Qed.

Lemma compliance_self_disks d :
  preserves (compliance d) (Orbita.self_disks K).
Proof. intros s. reflexivity. Qed.

Lemma compliance_point_at d vector angle :
  preserves (compliance d) (Orbita.point_at K vector angle).
Proof.
  unfold Orbita.point_at.
  apply preserves_bind; [apply compliance_call_model | intros thetas].
  apply preserves_bind; [apply compliance_self_disks | intros ds].
  apply preserves_for_each. intros [d' q].
  apply compliance_write. discriminate.
Qed.

Lemma compliance_orient d quat duration wait :
  preserves (compliance d) (Orbita.orient K quat duration wait).
Proof.
  unfold Orbita.orient.
  apply preserves_bind; [apply compliance_call_model | intros thetas].
  apply preserves_bind.
  { destruct (Orbita.Qpositive duration); [|apply preserves_ret].
    apply preserves_bind; [apply compliance_self_disks | intros ds].
    apply preserves_bind.
    - apply preserves_comprehension. intros [d' q].
      apply preserves_bind; [apply compliance_read | intros v].
      apply preserves_bind; [apply preserves_as_num | intros pos].
      apply preserves_truediv.
    - intros speeds.
      apply preserves_bind; [apply compliance_self_disks | intros ds'].
      apply preserves_for_each. intros [d' sp].
      apply compliance_write. discriminate. }
  intros _.
  apply preserves_bind; [apply compliance_self_disks | intros ds].
  apply preserves_bind.
  { apply preserves_for_each. intros [d' q].
    apply compliance_write. discriminate. }
  intros _. destruct wait; [apply compliance_sleep | apply preserves_ret].
Qed.

Lemma compliance_set_moving_speed d speed :
  preserves (compliance d) (Orbita.set_moving_speed K speed).
Proof.
  unfold Orbita.set_moving_speed.
  apply preserves_bind; [intros s; reflexivity | intros _].
  apply preserves_bind; [apply compliance_self_disks | intros ds].
  apply preserves_for_each. intros d'.
  apply compliance_write. discriminate.
Qed.

End Untouched.

(** X13: disks() is a fixed view: whatever the bus does and whatever the
    outcome, none of set_compliant, set_moving_speed, point_at, orient,
    setup and homing changes the three handles or their order. *)
Theorem disks_never_change :
  forall (K : Kinematics) (s : Orbita.Sys K),
    (forall compliancy,
       Orbita.disks (Orbita.self (snd (Orbita.set_compliant K compliancy s)))
       = Orbita.disks (Orbita.self s))
    /\ (forall speed,
          Orbita.disks
            (Orbita.self (snd (Orbita.set_moving_speed K speed s)))
          = Orbita.disks (Orbita.self s))
    /\ (forall vector angle,
          Orbita.disks (Orbita.self (snd (Orbita.point_at K vector angle s)))
          = Orbita.disks (Orbita.self s))
    /\ (forall quat duration wait,
          Orbita.disks
            (Orbita.self (snd (Orbita.orient K quat duration wait s)))
          = Orbita.disks (Orbita.self s))
    /\ (forall pid reduction wheel_size encoder_res speed,
          Orbita.disks
            (Orbita.self
               (snd (Orbita.setup K pid reduction wheel_size encoder_res
                       speed s)))
          = Orbita.disks (Orbita.self s))
    /\ (forall fuel speed limit_pos target_pos,
          Orbita.disks
            (Orbita.self
               (snd (Orbita.homing K fuel speed limit_pos target_pos s)))
          = Orbita.disks (Orbita.self s)).
Proof.
  intros K s. repeat split; intros.
  - apply (keeps_set_compliant Orbita.disks compliancy
             disks_ignore_model_and_compliancy s).
  - apply (keeps_disks_set_moving_speed speed s).
  - apply (keeps_point_at Orbita.disks vector angle
             disks_ignore_model_and_compliancy s).
  - apply (keeps_orient Orbita.disks quat duration wait
             disks_ignore_model_and_compliancy s).
  - apply (keeps_setup Orbita.disks pid reduction wheel_size encoder_res
             speed s).
  - apply (keeps_homing Orbita.disks fuel speed limit_pos target_pos
             disks_ignore_model_and_compliancy s).
Qed.

(** X14: point_at, orient and the moving_speed setter leave compliance
    alone: whatever the bus does and whatever the outcome, the cached
    compliant flag and the compliant attribute of every module are what
    they were, so a command sent to a compliant actuator does not stiffen
    it. *)
Theorem commands_leave_compliance_alone :
  forall (K : Kinematics) (s : Orbita.Sys K) (d : Handle),
    (forall vector angle,
       compliance d (snd (Orbita.point_at K vector angle s))
       = compliance d s)
    /\ (forall quat duration wait,
          compliance d (snd (Orbita.orient K quat duration wait s))
          = compliance d s)
    /\ (forall speed,
          compliance d (snd (Orbita.set_moving_speed K speed s))
          = compliance d s).
Proof.
  intros K s d. repeat split; intros.
  - apply compliance_point_at.
  - apply compliance_orient.
  - apply compliance_set_moving_speed.
Qed.

(* ------------------------------------------------------------------ *)
(** ** Homing: the runs that do not reach the end                       *)
(* ------------------------------------------------------------------ *)

Lemma resets_going_log ds m : resets (going_log ds m) = O.
Proof.
  induction m as [|m IH]; [reflexivity|]. cbn [going_log].
  rewrite resets_app, resets_polls. cbn [resets Nat.add]. exact IH.
Qed.

Lemma Qeq_bool_zero (q : Q) : q == 0 -> Qeq_bool q 0 = true.
Proof. apply Qeq_bool_iff. Qed.

Section HomingAborts.

Context (K : Kinematics).
Context (feed : nat -> Handle -> Attr -> Q) (fl : BusOp -> bool).
Context (Hs : forall op, fl op = false).

(** The loop while no poll ends it. *)
Lemma stall_detection_still_going (o : Orbita.OrbitaActuator K)
    (base fuel : nat) :
  forall k rg lg,
    (forall j, (k <= j < k + fuel)%nat ->
               stalled feed (Orbita.disks o) base j = false) ->
    Orbita.stall_detection K fuel
      {| dq_items := seen feed (Orbita.disks o) base k; dq_maxlen := 10 |}
      (at_poll o feed fl rg (3 * k + base) lg)
    = (Running, at_poll o feed fl rg (3 * (k + fuel) + base)
                  (lg ++ going_log (Orbita.disks o) fuel)).
Proof.
  induction fuel as [|fuel IH]; intros k rg lg Hnone.
  - cbn [Orbita.stall_detection going_log].
    rewrite Nat.add_0_r, app_nil_r. reflexivity.
  - rewrite (stall_detection_step K feed fl Hs), (Hnone k) by lia.
    rewrite IH by (intros j Hj; apply Hnone; lia).
    replace (3 * (S k + fuel) + base)%nat
      with (3 * (k + S fuel) + base)%nat by lia.
    cbn [going_log]. rewrite <- !app_assoc. reflexivity.
Qed.

(** [homing] when the disks never stall. *)
Lemma homing_still_going (o : Orbita.OrbitaActuator K) (fuel : nat)
    (speed limit_pos target_pos : Q)
    (rg : gmap (Handle * Attr) Value) (nr : nat) (lg : list Event) :
  (forall j, (j < fuel)%nat ->
             stalled feed (Orbita.disks o) nr j = false) ->
  exists s',
    Orbita.homing K fuel speed limit_pos target_pos
      (at_poll o feed fl rg nr lg) = (Running, s')
    /\ Orbita.compliant (Orbita.self s') = false
    /\ resets (log (Orbita.bus s')) = resets lg
    /\ forall d, d ∈ Orbita.disks o ->
         regs (Orbita.bus s') !! (d, attr.target_rot_position)
         = Some (VNum limit_pos).
Proof.
  intros Hnone. destruct o as [db dm dt m0 c0 v0].
  pose proof (fun rg lg =>
    stall_detection_still_going
      {| Orbita.disk_bottom := db; Orbita.disk_middle := dm;
         Orbita.disk_top := dt; Orbita.model := m0;
         Orbita._compliancy := false; Orbita._moving_speed := v0 |}
      nr fuel O rg lg
      (fun j Hj => Hnone j ltac:(lia))) as Hloop.
  unfold at_poll in *.
  cbv [Orbita.disks Orbita.disk_top Orbita.disk_middle Orbita.disk_bottom
       Orbita.model Orbita._moving_speed seen] in *.
  cbn [Nat.sub Nat.min seq map Nat.mul Nat.add] in Hloop.
  unfold Orbita.homing, Orbita.set_compliant. run_bus Hs.
  rewrite Hloop. run_py.
  eexists. split; [reflexivity|]. split; [reflexivity|]. split.
  - rewrite !resets_app, resets_going_log. cbn [resets]. lia.
  - intros d Hd.
    repeat (apply elem_of_cons in Hd as [-> | Hd]); [| | |inversion Hd];
      repeat (rewrite lookup_insert; case_decide;
              [simplify_eq; reflexivity|]);
      congruence.
Qed.

(** [homing] up to the wait of the move to [target_pos], when the
    division or the sleep raises. *)
Lemma homing_aborts_at_offset_wait (o : Orbita.OrbitaActuator K)
    (fuel n : nat) (speed limit_pos target_pos : Q)
    (rg : gmap (Handle * Attr) Value) (nr : nat) (lg : list Event) :
  (n < fuel)%nat ->
  stalled feed (Orbita.disks o) nr n = true ->
  (forall j, (j < n)%nat -> stalled feed (Orbita.disks o) nr j = false) ->
  speed == 0 \/ target_pos / speed + 0.25 < 0 ->
  exists s',
    Orbita.homing K fuel speed limit_pos target_pos
      (at_poll o feed fl rg nr lg)
    = (Raise (if Qeq_bool speed 0 then ZeroDivisionError
              else ValueError "sleep length must be non-negative"), s')
    /\ Orbita.compliant (Orbita.self s') = false
    /\ Orbita.model (Orbita.self s') = Orbita.model o
    /\ resets (log (Orbita.bus s')) = resets lg
    /\ forall d, d ∈ Orbita.disks o ->
         regs (Orbita.bus s') !! (d, attr.target_rot_position)
         = Some (VNum target_pos).
Proof.
  intros Hfuel Hn Hbefore Hbad. destruct o as [db dm dt m0 c0 v0].
  pose proof (fun rg lg =>
    stall_detection_from_start K feed fl Hs
      {| Orbita.disk_bottom := db; Orbita.disk_middle := dm;
         Orbita.disk_top := dt; Orbita.model := m0;
         Orbita._compliancy := false; Orbita._moving_speed := v0 |}
      nr fuel n rg lg Hfuel Hbefore Hn) as Hloop.
  unfold at_poll in *.
  cbv [Orbita.disks Orbita.disk_top Orbita.disk_middle Orbita.disk_bottom
       Orbita.model Orbita._moving_speed] in *.
  unfold Orbita.homing, Orbita.set_compliant. run_bus Hs.
  rewrite Hloop. run_bus Hs.
  destruct (Qeq_bool speed 0) eqn:Hzero.
  - run_py. eexists. split; [reflexivity|]. split; [reflexivity|].
    split; [reflexivity|]. split.
    + rewrite !resets_app, resets_stall_log. cbn [resets]. lia.
    + intros d Hd.
      repeat (apply elem_of_cons in Hd as [-> | Hd]); [| | |inversion Hd];
        repeat (rewrite lookup_insert; case_decide;
                [simplify_eq; reflexivity|]);
        congruence.
  - destruct Hbad as [Hbad | Hbad].
    { apply Qeq_bool_zero in Hbad. congruence. }
    run_py. rewrite (Qle_bool_negative _ Hbad).
    eexists. split; [reflexivity|]. split; [reflexivity|].
    split; [reflexivity|]. split.
    + rewrite !resets_app, resets_stall_log. cbn [resets]. lia.
    + intros d Hd.
      repeat (apply elem_of_cons in Hd as [-> | Hd]); [| | |inversion Hd];
        repeat (rewrite lookup_insert; case_decide;
                [simplify_eq; reflexivity|]);
        congruence.
Qed.

End HomingAborts.

(** X15: homing with speed = 0 on a sound bus: once the stall loop has
    ended, the three disks are sent to target_pos and the computation of
    the wait, target_pos / speed, raises ZeroDivisionError; the actuator is
    left stiff, the disks commanded to target_pos, and reset_last_angles
    has not been called. *)
Theorem homing_with_zero_speed_divides_by_zero :
  forall (K : Kinematics) (s : Orbita.Sys K) (fuel n : nat)
         (speed limit_pos target_pos : Q),
    sound (Orbita.bus s) ->
    (n < fuel)%nat ->
    stalled (sensor (Orbita.bus s)) (Orbita.disks (Orbita.self s))
            (nreads (Orbita.bus s)) n = true ->
    (forall j, (j < n)%nat ->
       stalled (sensor (Orbita.bus s)) (Orbita.disks (Orbita.self s))
               (nreads (Orbita.bus s)) j = false) ->
    speed == 0 ->
    exists s',
      Orbita.homing K fuel speed limit_pos target_pos s
      = (Raise ZeroDivisionError, s')
      /\ Orbita.compliant (Orbita.self s') = false
      /\ resets (log (Orbita.bus s')) = resets (log (Orbita.bus s))
      /\ forall d, d ∈ Orbita.disks (Orbita.self s) ->
           regs (Orbita.bus s') !! (d, attr.target_rot_position)
           = Some (VNum target_pos).
Proof.
  intros K [o [rg feed nr fl lg]] fuel n speed limit_pos target_pos
         Hs Hfuel Hn Hbefore Hzero.
  unfold sound in Hs.
  cbn [Orbita.bus Orbita.self sensor nreads fails log] in *.
  destruct (homing_aborts_at_offset_wait K feed fl Hs o fuel n speed
              limit_pos target_pos rg nr lg Hfuel Hn Hbefore
              (or_introl Hzero))
    as (s' & Hrun & Hflag & _ & Hresets & Hregs).
  rewrite (Qeq_bool_zero _ Hzero) in Hrun.
  exists s'. split; [exact Hrun|]. split; [exact Hflag|].
  split; [exact Hresets | exact Hregs].
Qed.

(** The theorem on disks at rest: the loop ends at the first poll and the
    division by the speed 0 raises. *)
Lemma homing_with_zero_speed_divides_by_zero_witness :
  exists s',
    Orbita.homing (stub_solver [0; 0; 0]) 10 0 Orbita.default_limit_pos
      Orbita.default_target_pos
      {| Orbita.self := neck [0; 0; 0]; Orbita.bus := sound_bus at_rest |}
    = (Raise ZeroDivisionError, s')
    /\ resets (log (Orbita.bus s')) = 0%nat.
Proof.
  destruct (homing_with_zero_speed_divides_by_zero (stub_solver [0; 0; 0])
              {| Orbita.self := neck [0; 0; 0];
                 Orbita.bus := sound_bus at_rest |}
              10 0 0 Orbita.default_limit_pos Orbita.default_target_pos
              (fun op => eq_refl))
    as (s' & Hrun & _ & Hresets & _).
  - lia.
  - vm_compute. reflexivity.
  - intros j Hj. lia.
  - reflexivity.
  - exists s'. split; [exact Hrun | exact Hresets].
Defined.



(** X17: homing whose computed wait target_pos / speed + 0.25 is negative
    (a target_pos and a speed of opposite signs): on a sound bus, once the
    stall loop has ended, the disks are sent to target_pos and the sleep
    raises ValueError; the final zero reference is not taken and
    reset_last_angles is not called. *)
Theorem homing_with_negative_wait_raises :
  forall (K : Kinematics) (s : Orbita.Sys K) (fuel n : nat)
         (speed limit_pos target_pos : Q),
    sound (Orbita.bus s) ->
    (n < fuel)%nat ->
    stalled (sensor (Orbita.bus s)) (Orbita.disks (Orbita.self s))
            (nreads (Orbita.bus s)) n = true ->
    (forall j, (j < n)%nat ->
       stalled (sensor (Orbita.bus s)) (Orbita.disks (Orbita.self s))
               (nreads (Orbita.bus s)) j = false) ->
    ~ speed == 0 ->
    target_pos / speed + 0.25 < 0 ->
    exists s',
      Orbita.homing K fuel speed limit_pos target_pos s
      = (Raise (ValueError "sleep length must be non-negative"), s')
      /\ Orbita.compliant (Orbita.self s') = false
      /\ Orbita.model (Orbita.self s') = Orbita.model (Orbita.self s)
      /\ resets (log (Orbita.bus s')) = resets (log (Orbita.bus s))
      /\ forall d, d ∈ Orbita.disks (Orbita.self s) ->
           regs (Orbita.bus s') !! (d, attr.target_rot_position)
           = Some (VNum target_pos).
Proof.
  intros K [o [rg feed nr fl lg]] fuel n speed limit_pos target_pos
         Hs Hfuel Hn Hbefore Hspeed Hneg.
  unfold sound in Hs.
  cbn [Orbita.bus Orbita.self sensor nreads fails log] in *.
  destruct (homing_aborts_at_offset_wait K feed fl Hs o fuel n speed
              limit_pos target_pos rg nr lg Hfuel Hn Hbefore
              (or_intror Hneg))
    as (s' & Hrun & Hflag & Hmodel & Hresets & Hregs).
  rewrite (Qeq_bool_nonzero _ Hspeed) in Hrun.
  exists s'. split; [exact Hrun|]. split; [exact Hflag|].
  split; [exact Hmodel|]. split; [exact Hresets | exact Hregs].
Qed.

(** The theorem at target_pos = -102 and speed = 50, on disks at rest. *)
Lemma homing_with_negative_wait_raises_witness :
  exists s',
    Orbita.homing (stub_solver [0; 0; 0]) 10 Orbita.default_speed
      Orbita.default_limit_pos (- 102)
      {| Orbita.self := neck [0; 0; 0]; Orbita.bus := sound_bus at_rest |}
    = (Raise (ValueError "sleep length must be non-negative"), s')
    /\ resets (log (Orbita.bus s')) = 0%nat.
Proof.
  destruct (homing_with_negative_wait_raises (stub_solver [0; 0; 0])
              {| Orbita.self := neck [0; 0; 0];
                 Orbita.bus := sound_bus at_rest |}
              10 0 Orbita.default_speed Orbita.default_limit_pos (- 102)
              (fun op => eq_refl))
    as (s' & Hrun & _ & _ & Hresets & _).
  - lia.
  - vm_compute. reflexivity.
  - intros j Hj. lia.
  - intros H. discriminate H.
  - reflexivity.
  - exists s'. split; [exact Hrun | exact Hresets].
Defined.

(* ------------------------------------------------------------------ *)
(** ** orient: reads come before every write                            *)
(* ------------------------------------------------------------------ *)

(** X18: orient with duration > 0 reads the three positions before it
    writes anything: when the solver answers and the rot_position of one
    of the disks cannot be read, orient raises the bus error of a failed
    read and no register has been written, whatever the writes would have
    done. *)
Theorem orient_read_failure_writes_nothing :
  forall (K : Kinematics) (s : Orbita.Sys K) (quat : Quaternion)
         (duration : Q) (wait : bool) (a b c : Q) (m' : Model K)
         (d : Handle),
    get_angles_from_quaternion K (Orbita.model (Orbita.self s))
      (quat_w quat) (quat_x quat) (quat_y quat) (quat_z quat)
    = (Ok [a; b; c], m') ->
    0 < duration ->
    d ∈ Orbita.disks (Orbita.self s) ->
    fails (Orbita.bus s) (BRead d attr.rot_position) = true ->
    exists d' s',
      Orbita.orient K quat duration wait s
      = (Raise (HardwareIOError (BRead d' attr.rot_position)), s')
      /\ d' ∈ Orbita.disks (Orbita.self s)
      /\ regs (Orbita.bus s') = regs (Orbita.bus s).
Proof.
  intros K [[db dm dt m0 c0 v0] [rg sn nr fl lg]] quat duration wait a b c
         m' d Hsolve Hpos Hd Hfail.
  cbn in Hsolve, Hfail.
  cbv [Orbita.disks Orbita.disk_top Orbita.disk_middle Orbita.disk_bottom
       Orbita.self] in Hd |- *.
  unfold Orbita.orient. run_py. rewrite Hsolve.
  rewrite (Qpositive_true _ Hpos). run_py.
  destruct (fl (BRead dt attr.rot_position)) eqn:Htop.
  { exists dt. eexists. split; [reflexivity|].
    split; [apply list_elem_of_In; cbn; tauto | reflexivity]. }
  rewrite (Qeq_bool_positive _ Hpos). run_py.
  destruct (fl (BRead dm attr.rot_position)) eqn:Hmid.
  { exists dm. eexists. split; [reflexivity|].
    split; [apply list_elem_of_In; cbn; tauto | reflexivity]. }
  run_py.
  destruct (fl (BRead db attr.rot_position)) eqn:Hbot.
  { exists db. eexists. split; [reflexivity|].
    split; [apply list_elem_of_In; cbn; tauto | reflexivity]. }
  exfalso.
  repeat (apply elem_of_cons in Hd as [-> | Hd]); try congruence.
  inversion Hd.
Qed.

(** The theorem on a bus whose module 2 (the middle disk) cannot be
    read. *)
Lemma orient_read_failure_writes_nothing_witness :
  exists d' s',
    Orbita.orient (stub_solver [1; 2; 3])
      {| quat_w := 1; quat_x := 0; quat_y := 0; quat_z := 0 |} 2 false
      {| Orbita.self := neck [1; 2; 3];
         Orbita.bus := bus_with_blind_module 2%nat |}
    = (Raise (HardwareIOError (BRead d' attr.rot_position)), s')
    /\ regs (Orbita.bus s') = ∅.
Proof.
  assert (2%nat ∈ [3; 2; 1]%nat) as Hin
    by (apply list_elem_of_In; cbn; tauto).
  destruct (orient_read_failure_writes_nothing (stub_solver [1; 2; 3])
              {| Orbita.self := neck [1; 2; 3];
                 Orbita.bus := bus_with_blind_module 2%nat |}
              {| quat_w := 1; quat_x := 0; quat_y := 0; quat_z := 0 |}
              2 false 1 2 3 O 2%nat eq_refl eq_refl Hin eq_refl)
    as (d' & s' & Hrun & _ & Hregs).
  exists d', s'. split; [exact Hrun | exact Hregs].
Defined.

(* ------------------------------------------------------------------ *)
(** ** Homing: the window of ten of its stall loop                      *)
(* ------------------------------------------------------------------ *)

(** The log of the run starts with the log before it followed by the
    events up to the zero reference after the loop. *)
Ltac log_has_prefix :=
  cbn [Orbita.bus log]; rewrite <- !app_assoc; apply prefix_app;
  cbn [homing_until_stalled zeroes map flat_map app];
  rewrite <- ?app_assoc; cbn [app];
  repeat first [ apply prefix_cons | apply prefix_app ];
  apply prefix_nil.

Section HomingLeavesTheLoop.

Context (K : Kinematics).
Context (feed : nat -> Handle -> Attr -> Q) (fl : BusOp -> bool).
Context (Hs : forall op, fl op = false).

(** [homing] from its start to the zero reference taken after the loop,
    whatever happens afterwards. *)
Lemma homing_past_stall (o : Orbita.OrbitaActuator K) (fuel n : nat)
    (speed limit_pos target_pos : Q)
    (rg : gmap (Handle * Attr) Value) (nr : nat) (lg : list Event) :
  (n < fuel)%nat ->
  stalled feed (Orbita.disks o) nr n = true ->
  (forall j, (j < n)%nat -> stalled feed (Orbita.disks o) nr j = false) ->
  exists r s',
    Orbita.homing K fuel speed limit_pos target_pos
      (at_poll o feed fl rg nr lg) = (r, s')
    /\ nreads (Orbita.bus s') = (3 * S n + nr)%nat
    /\ (lg ++ homing_until_stalled (Orbita.disks o) speed limit_pos n)
       `prefix_of` log (Orbita.bus s').
Proof.
  intros Hfuel Hn Hbefore. destruct o as [db dm dt m0 c0 v0].
  pose proof (fun rg lg =>
    stall_detection_from_start K feed fl Hs
      {| Orbita.disk_bottom := db; Orbita.disk_middle := dm;
         Orbita.disk_top := dt; Orbita.model := m0;
         Orbita._compliancy := false; Orbita._moving_speed := v0 |}
      nr fuel n rg lg Hfuel Hbefore Hn) as Hloop.
  unfold at_poll in *.
  cbv [Orbita.disks Orbita.disk_top Orbita.disk_middle Orbita.disk_bottom
       Orbita.model Orbita._moving_speed] in *.
  unfold Orbita.homing, Orbita.orient, Orbita.set_compliant. run_bus Hs.
  rewrite Hloop. run_bus Hs. clear Hloop Hn Hbefore.
  destruct (Qeq_bool speed 0); run_py.
  { eexists. eexists. split; [reflexivity|]. split; [reflexivity|].
    log_has_prefix. }
  destruct (Qle_bool 0 (target_pos / speed + 0.25)); run_bus Hs.
  2: { eexists. eexists. split; [reflexivity|]. split; [reflexivity|].
       log_has_prefix. }
  cbn [quat_w quat_x quat_y quat_z].
  rewrite default_duration_not_positive.
  destruct (get_angles_from_quaternion K (reset_last_angles K m0) 1 0 0 0)
    as [[thetas|e|] m'].
  2, 3: (run_py; eexists; eexists; split; [reflexivity|];
         split; [reflexivity|]; log_has_prefix).
  destruct thetas as [|a [|b [|c [|x thetas]]]]; run_bus Hs;
    rewrite ?default_duration_negative;
    (eexists; eexists; split; [reflexivity|];
     split; [reflexivity|]; log_has_prefix).
Qed.

End HomingLeavesTheLoop.

(** C5, as stated, on binary64 velocities: with the three disks reading
    -0.5, then -0.1, then 0.6, numpy's mean of the three samples is
    (-0.5 + -0.1) + 0.6 = 0.0 for each disk, so the loop breaks at the
    third poll, while the mean of those three values is -2^-55 / 3, which
    is negative: the exit is decided by the rounded mean, and the loop
    computed exactly does not end there. *)
Lemma rounded_mean_ends_the_loop_early :
  let velocities := [-0.5; -0.1; 0.6]%float in
  Float64.stall_detection {| dq_items := []; dq_maxlen := 10 |}
    (map (fun v => [v; v; v]) velocities) 0 = Some 2%nat
  /\ mean (map exact_value velocities) < 0
  /\ stalled (replay (map exact_value velocities)) [3; 2; 1]%nat 0 2
     = false.
Proof.
  cbv zeta. split; [vm_compute; reflexivity|].
  split; vm_compute; reflexivity.
Qed.

(** C5 (amended): homing keeps the last ten velocity samples (the samples
    [k - 9 .. k] at poll [k], all of them while there are fewer than ten)
    and takes the mean of each disk over that window; with the means
    computed exactly, on a sound bus, homing leaves its loop exactly at the
    first poll [n] at which the mean of every disk is non-negative: it has
    then made [n + 1] polls and [n] sleeps of 0.01 and goes on to the zero
    reference that follows the loop; samples older than the window have no
    say in the test; and as long as no poll passes the test homing stays
    in the loop, whatever the number of iterations it is followed for. *)
Theorem homing_stall_window_of_ten :
  forall (K : Kinematics) (s : Orbita.Sys K) (fuel : nat)
         (speed limit_pos target_pos : Q),
    sound (Orbita.bus s) ->
    let ds := Orbita.disks (Orbita.self s) in
    let feed := sensor (Orbita.bus s) in
    let base := nreads (Orbita.bus s) in
    (forall k,
       window feed ds base k
       = map (sample feed ds base) (seq (k - 9) (Nat.min (S k) 10)))
    /\ (forall k i,
          (i < 3)%nat ->
          nth i (np_mean_axis0 (window feed ds base k)) 0
          = mean (column i (window feed ds base k)))
    /\ (forall n,
          (n < fuel)%nat ->
          stalled feed ds base n = true ->
          (forall j, (j < n)%nat -> stalled feed ds base j = false) ->
          exists r s' tail,
            Orbita.homing K fuel speed limit_pos target_pos s = (r, s')
            /\ nreads (Orbita.bus s') = (3 * S n + base)%nat
            /\ log (Orbita.bus s')
               = log (Orbita.bus s)
                 ++ homing_until_stalled ds speed limit_pos n ++ tail
            /\ sleeps (stall_log ds n) = n)
    /\ ((forall j, (j < fuel)%nat -> stalled feed ds base j = false) ->
        fst (Orbita.homing K fuel speed limit_pos target_pos s) = Running)
    /\ (forall feed' k,
          (forall j, (k - 9 <= j <= k)%nat ->
                     sample feed' ds base j = sample feed ds base j) ->
          stalled feed' ds base k = stalled feed ds base k).
Proof.
  intros K [o [rg feed nr fl lg]] fuel speed limit_pos target_pos Hs
         ds feed0 base.
  subst ds feed0 base. unfold sound in Hs.
  cbn [Orbita.bus Orbita.self sensor nreads fails log] in *.
  split; [intros k; reflexivity|].
  split.
  { intros k i Hi. unfold np_mean_axis0, window, mean, column.
    assert (length (hd [] (seen feed (Orbita.disks o) nr (S k))) = 3%nat)
      as ->.
    { unfold seen. destruct (Nat.min (S k) 10) eqn:E; [lia|].
      cbn [seq map hd]. rewrite length_sample. reflexivity. }
    rewrite length_map.
    destruct i as [|[|[|i]]]; [reflexivity..|lia]. }
  split.
  { intros n Hn Hstalled Hbefore.
    destruct (homing_past_stall K feed fl Hs o fuel n speed limit_pos
                target_pos rg nr lg Hn Hstalled Hbefore)
      as (r & s' & Hrun & Hreads & [tail Hlog]).
    exists r, s', tail. split; [exact Hrun|]. split; [exact Hreads|].
    split; [|apply sleeps_stall_log].
    rewrite Hlog, <- app_assoc. reflexivity. }
  split.
  { intros Hnone.
    destruct (homing_still_going K feed fl Hs o fuel speed limit_pos
                target_pos rg nr lg Hnone) as (s' & Hrun & _).
    change {| Orbita.self := o;
              Orbita.bus := {| regs := rg; sensor := feed; nreads := nr;
                               fails := fl; log := lg |} |}
      with (at_poll o feed fl rg nr lg).
    rewrite Hrun. reflexivity. }
  intros feed' k. apply stalled_depends_on_window.
Qed.

(** The theorem on the run of the specification: the velocities are
    negative for fifteen polls and zero afterwards; homing leaves its loop
    at poll 24, the first whose window holds no negative sample, having
    read the three velocities 25 times, and the negative samples 0 .. 14
    outside that window do not hold it back. *)
Lemma homing_stall_window_of_ten_witness :
  exists r s',
    Orbita.homing (stub_solver [0; 0; 0]) 100 Orbita.default_speed
      Orbita.default_limit_pos Orbita.default_target_pos
      {| Orbita.self := neck [0; 0; 0];
         Orbita.bus := sound_bus hits_the_stop |}
    = (r, s')
    /\ nreads (Orbita.bus s') = 75%nat.
Proof.
  destruct (homing_stall_window_of_ten (stub_solver [0; 0; 0])
              {| Orbita.self := neck [0; 0; 0];
                 Orbita.bus := sound_bus hits_the_stop |}
              100 Orbita.default_speed Orbita.default_limit_pos
              Orbita.default_target_pos (fun op => eq_refl))
    as (_ & _ & Hexit & _ & _).
  destruct (Hexit 24%nat) as (r & s' & tail & Hrun & Hreads & _).
  - lia.
  - vm_compute. reflexivity.
  - intros j Hj.
    do 24 (destruct j as [|j]; [vm_compute; reflexivity|]). lia.
  - exists r, s'. split; [exact Hrun | exact Hreads].
Defined.
